(** * CookSheet front end: a shallow embedding of the React components

    The repository is a Next.js front end.  Every component keeps its data in
    React state and talks to a FastAPI back end over HTTP.  The embedding
    follows the components file by file:

    - a handler is a function from the state its closure captured (props and
      [useState] values of the render in which it was created) and from the
      outcome of the HTTP call it awaits, to the new state and the list of
      effects it issued (requests sent, parent callbacks invoked);
    - a JS object of type [any] or [{[key: string]: any}] is a finite map from
      property names to JSON values, and reading an absent property yields
      [VUndef];
    - [Date.now()] and [new Date().toISOString()] are inputs of the handler;
    - a JS string is held as the bytes of its UTF-8 encoding.

    JS numbers are restricted to integers. *)

From stdpp Require Import base option list strings gmap pretty.
From Stdlib Require Import ZArith Lia Ascii.

Local Open Scope string_scope.
Local Open Scope Z_scope.
Local Open Scope list_scope.

(** ** JavaScript values *)

Module JS.

(** JSON data as it arrives from the back end, plus [undefined]. *)
#[warnings="-register-all"]
Inductive value : Type :=
| VUndef
| VNull
| VBool (b : bool)
| VNum (n : Z)
| VStr (s : string)
| VArr (l : list value)
| VObj (o : gmap string value).

(** An object literal or a parsed JSON object. *)
Abbreviation object := (gmap string value).

(** [o.k]: property read; an absent property is [undefined]. *)
Definition get (o : object) (k : string) : value :=
  default VUndef (o !! k).

(** ToBoolean: [undefined], [null], [false], [0] and [""] are falsy. *)
Definition truthy (v : value) : bool :=
  match v with
  | VUndef | VNull => false
  | VBool b => b
  | VNum n => negb (Z.eqb n 0)
  | VStr s => negb (String.eqb s "")
  | VArr _ | VObj _ => true
  end.

(** [a || b] *)
Definition or (a b : value) : value := if truthy a then a else b.

(** White space removed by [String.prototype.trim]: the WhiteSpace and
    LineTerminator code points of ECMAScript.  A string is held as the bytes
    of its UTF-8 encoding, so a code point is one, two or three bytes.

    One byte: TAB, LF, VT, FF, CR and SPACE. *)
Definition is_space (c : Ascii.ascii) : bool :=
  match Ascii.nat_of_ascii c with
  | 9%nat | 10%nat | 11%nat | 12%nat | 13%nat | 32%nat => true
  | _ => false
  end.

(** Two bytes: U+00A0 (no-break space), [C2 A0]. *)
Definition is_space2 (c1 c2 : Ascii.ascii) : bool :=
  Nat.eqb (Ascii.nat_of_ascii c1) 194 && Nat.eqb (Ascii.nat_of_ascii c2) 160.

(** Three bytes: U+1680 [E1 9A 80]; U+2000 to U+200A [E2 80 80..8A];
    U+2028, U+2029 and U+202F [E2 80 A8], [E2 80 A9], [E2 80 AF];
    U+205F [E2 81 9F]; U+3000 [E3 80 80]; U+FEFF [EF BB BF]. *)
Definition is_space3 (c1 c2 c3 : Ascii.ascii) : bool :=
  let b1 := Ascii.nat_of_ascii c1 in
  let b2 := Ascii.nat_of_ascii c2 in
  let b3 := Ascii.nat_of_ascii c3 in
  (Nat.eqb b1 225 && Nat.eqb b2 154 && Nat.eqb b3 128)
  || (Nat.eqb b1 226 && Nat.eqb b2 128
      && ((Nat.leb 128 b3 && Nat.leb b3 138)
          || Nat.eqb b3 168 || Nat.eqb b3 169 || Nat.eqb b3 175))
  || (Nat.eqb b1 226 && Nat.eqb b2 129 && Nat.eqb b3 159)
  || (Nat.eqb b1 227 && Nat.eqb b2 128 && Nat.eqb b3 128)
  || (Nat.eqb b1 239 && Nat.eqb b2 187 && Nat.eqb b3 191).

(** Is [s] made of white space only? *)
Fixpoint blank (s : string) : bool :=
  match s with
  | EmptyString => true
  | String c1 s1 =>
      if is_space c1 then blank s1
      else
        match s1 with
        | String c2 s2 =>
            if is_space2 c1 c2 then blank s2
            else
              match s2 with
              | String c3 s3 => is_space3 c1 c2 c3 && blank s3
              | EmptyString => false
              end
        | EmptyString => false
        end
  end.

(** Drops the white space at the start, one code point at a time. *)
Fixpoint trim_start (s : string) : string :=
  match s with
  | EmptyString => EmptyString
  | String c1 s1 =>
      if is_space c1 then trim_start s1
      else
        match s1 with
        | String c2 s2 =>
            if is_space2 c1 c2 then trim_start s2
            else
              match s2 with
              | String c3 s3 =>
                  if is_space3 c1 c2 c3 then trim_start s3 else s
              | EmptyString => s
              end
        | EmptyString => s
        end
  end.

(** Drops the white space at the end: the text is cut where what follows
    is white space only.  No white-space code point starts with a
    continuation byte, so the cut falls between two code points. *)
Fixpoint trim_end (s : string) : string :=
  if blank s then EmptyString
  else
    match s with
    | String c s' => String c (trim_end s')
    | EmptyString => EmptyString
    end.

Definition trim (s : string) : string := trim_end (trim_start s).

(** Truthiness of a string: [!s] is [true] exactly on [""]. *)
Definition str_truthy (s : string) : bool := negb (String.eqb s "").

(** [a === b] on values parsed from JSON.  Primitives compare by type and
    value.  Two arrays or objects are equal only when they are one and the
    same object, which the embedding does not record: [None]. *)
Definition strict_eq (a b : value) : option bool :=
  match a, b with
  | VUndef, VUndef | VNull, VNull => Some true
  | VBool x, VBool y => Some (Bool.eqb x y)
  | VNum x, VNum y => Some (Z.eqb x y)
  | VStr x, VStr y => Some (String.eqb x y)
  | (VArr _ | VObj _), (VArr _ | VObj _) => None
  | _, _ => Some false
  end.

(** [t === item] where [item] is a string: only that very string is equal. *)
Definition is_str (item : string) (t : value) : bool :=
  match t with
  | VStr s => String.eqb s item
  | _ => false
  end.

(** [c.toUpperCase()] on one ASCII character. *)
Definition upper (c : Ascii.ascii) : Ascii.ascii :=
  let n := Ascii.nat_of_ascii c in
  if Nat.leb 97 n && Nat.leb n 122 then Ascii.ascii_of_nat (n - 32) else c.

(** [s.charAt(0).toUpperCase() + s.slice(1)], for ASCII text. *)
Definition capitalize (s : string) : string :=
  match s with
  | String c s' => String (upper c) s'
  | EmptyString => EmptyString
  end.

(** A string, number, boolean, [null] or [undefined]: a value that [===]
    compares by content. *)
Definition primitive (v : value) : bool :=
  match v with
  | VArr _ | VObj _ => false
  | _ => true
  end.

End JS.

Import JS.

(** A row of an uploaded table: [DataRow = {[key: string]: any}]. *)
Abbreviation DataRow := (gmap string value).

(** ** components/DataGrid.tsx *)

Module DataGrid.

(** [data.map((row, index) => ({...row, id: row.id || index}))] *)
Definition grid_row (index : nat) (row : DataRow) : DataRow :=
  <["id" := JS.or (get row "id") (VNum (Z.of_nat index))]> row.

Definition rows (data : list DataRow) : list DataRow :=
  imap grid_row data.

(** [newRows.map(({ id, ...rest }) => rest)]; the result is what
    [onDataUpdate] receives. *)
Definition handleRowsChange (newRows : list DataRow) : list DataRow :=
  map (delete "id") newRows.

End DataGrid.

(** ** The validation report the back end returns

    The front end receives the report as JSON ([validationResult: any]); the
    record below is the shape the components read from it.  [summary] is a
    JSON object rendered through [Object.entries], so its entries are kept in
    order. *)

Module Report.

Inductive severity : Type := Critical | Warning.

#[global] Instance severity_eq_dec : EqDecision severity.
Proof. solve_decision. Defined.

Record Issue : Type := mkIssue {
  error_type : string;
  issue_severity : severity;
  row_index : Z;
  column : option string;
  message : string;
  suggested_fix : option string;
  cell_value : option string
}.

#[global] Instance Issue_eq_dec : EqDecision Issue.
Proof. solve_decision. Defined.

Record SummaryExample : Type := mkExample {
  ex_column : option string;
  ex_row : Z;
  ex_message : string
}.

Record SummaryEntry : Type := mkEntry {
  count : nat;
  entry_severity : severity;
  examples : list SummaryExample
}.

Record ValidationReport : Type := mkReport {
  is_valid : bool;
  total_errors : nat;
  total_warnings : nat;
  errors : list Issue;
  warnings : list Issue;
  summary : list (string * SummaryEntry);
  recommendations : list string
}.

End Report.

(** ** Outcomes of an awaited HTTP call *)

Module Http.

(** [await response.json()]: the body parses to data of the shape the
    caller reads, or the promise rejects with an [Error].  A body that
    parses to [null] makes the first property read throw and is a
    [ParseError] here. *)
Inductive parsed (A : Type) : Type :=
| ParseError (message : string)
| Parsed (data : A).

Arguments ParseError {A} message.
Arguments Parsed {A} data.

(** [await fetch(...)]: the call rejects with an [Error], or it resolves to
    a response whose [ok] flag and [statusText] are read before its body. *)
Inductive fetch_outcome (A : Type) : Type :=
| NetworkError (message : string)
| Response (ok : bool) (statusText : string) (json : parsed A).

Arguments NetworkError {A} message.
Arguments Response {A} ok statusText json.

(** [await axios.post(...)]: axios rejects on a network error and on every
    status outside 2xx, otherwise [response.data] is available. *)
Inductive axios_outcome (A : Type) : Type :=
| AxiosError
| AxiosOk (data : A).

Arguments AxiosError {A}.
Arguments AxiosOk {A} data.

End Http.

Import Http.

(** [l.length > 0] *)
Definition nonempty {A : Type} (l : list A) : bool :=
  negb (Nat.eqb (length l) 0).

(** ** app/layout.tsx: the [Home] component *)

Module Home.

Import Report.

(** [interface Rule]; the fields are filled from [any]-typed responses, so
    they hold JSON values. *)
Record Rule : Type := mkRule {
  id : string;
  description : value;
  type : value;
  parameters : value
}.

Record Priority : Type := mkPriority {
  fairness : Z;
  loadBalance : Z;
  priorityLevel : Z
}.

(** The reply of [POST /upload] handed on by [FileUpload]: the component
    reads [validation_preview] and keeps the whole object as [aiInsights]. *)
Record UploadResponse : Type := mkUploadResponse {
  validation_preview : option ValidationReport;
  upload_fields : object
}.

(** The [useState] cells of [Home]. *)
Record State : Type := mkState {
  clientsData : list DataRow;
  workersData : list DataRow;
  tasksData : list DataRow;
  rules : list Rule;
  priorities : Priority;
  validationResult : option ValidationReport;
  activeTab : string;
  aiInsights : option UploadResponse
}.

Definition initial : State :=
  {| clientsData := []; workersData := []; tasksData := []; rules := [];
     priorities := {| fairness := 50; loadBalance := 50; priorityLevel := 50 |};
     validationResult := None; activeTab := "upload"; aiInsights := None |}.

Definition setClientsData (d : list DataRow) (st : State) : State :=
  {| clientsData := d; workersData := workersData st; tasksData := tasksData st;
     rules := rules st; priorities := priorities st;
     validationResult := validationResult st; activeTab := activeTab st;
     aiInsights := aiInsights st |}.

Definition setWorkersData (d : list DataRow) (st : State) : State :=
  {| clientsData := clientsData st; workersData := d; tasksData := tasksData st;
     rules := rules st; priorities := priorities st;
     validationResult := validationResult st; activeTab := activeTab st;
     aiInsights := aiInsights st |}.

Definition setTasksData (d : list DataRow) (st : State) : State :=
  {| clientsData := clientsData st; workersData := workersData st; tasksData := d;
     rules := rules st; priorities := priorities st;
     validationResult := validationResult st; activeTab := activeTab st;
     aiInsights := aiInsights st |}.

Definition setRules (r : list Rule) (st : State) : State :=
  {| clientsData := clientsData st; workersData := workersData st;
     tasksData := tasksData st; rules := r; priorities := priorities st;
     validationResult := validationResult st; activeTab := activeTab st;
     aiInsights := aiInsights st |}.

Definition setValidationResult (v : option ValidationReport) (st : State) : State :=
  {| clientsData := clientsData st; workersData := workersData st;
     tasksData := tasksData st; rules := rules st; priorities := priorities st;
     validationResult := v; activeTab := activeTab st;
     aiInsights := aiInsights st |}.

Definition setAiInsights (a : option UploadResponse) (st : State) : State :=
  {| clientsData := clientsData st; workersData := workersData st;
     tasksData := tasksData st; rules := rules st; priorities := priorities st;
     validationResult := validationResult st; activeTab := activeTab st;
     aiInsights := a |}.

(** The body of [POST /validate/comprehensive]. *)
Record ValidateBody : Type := mkValidateBody {
  clients_data : list DataRow;
  workers_data : list DataRow;
  tasks_data : list DataRow
}.

Inductive request : Type :=
| ValidateComprehensive (body : ValidateBody).

(** The parsed reply: [validationData.validation_result], possibly absent. *)
Record ValidateReply : Type := mkValidateReply {
  validation_result : option ValidationReport
}.

(** The [switch (type)] at the head of [handleDataUpload]. *)
Definition store_table (ty : string) (data : list DataRow) (st : State) : State :=
  if String.eqb ty "clients" then setClientsData data st
  else if String.eqb ty "workers" then setWorkersData data st
  else if String.eqb ty "tasks" then setTasksData data st
  else st.

(** [type === 'clients' ? data : clientsData], and likewise for the others. *)
Definition snapshot (st : State) (ty : string) (data : list DataRow) : ValidateBody :=
  {| clients_data := if String.eqb ty "clients" then data else clientsData st;
     workers_data := if String.eqb ty "workers" then data else workersData st;
     tasks_data := if String.eqb ty "tasks" then data else tasksData st |}.

(** [handleDataUpload(type, data, backendResponse?)].  [st] holds the values
    the closure captured, so the guard before the request reads the tables
    as they were before this call.  [reply] is the outcome of the
    validation request, consulted only when the request is sent. *)
Definition handleDataUpload (st : State) (ty : string) (data : list DataRow)
    (backendResponse : option UploadResponse)
    (reply : fetch_outcome ValidateReply) : State * list request :=
  let st1 := store_table ty data st in
  match backendResponse with
  | None => (st1, [])
  | Some resp =>
      let st2 := setAiInsights (Some resp) st1 in
      let st3 :=
        match validation_preview resp with
        | Some vp => setValidationResult (Some vp) st2
        | None => st2
        end in
      if nonempty (clientsData st) || nonempty (workersData st)
         || nonempty (tasksData st)
      then
        let req := ValidateComprehensive (snapshot st ty data) in
        match reply with
        | Response true _ (Parsed validationData) =>
            (setValidationResult (validation_result validationData) st3, [req])
        | _ => (st3, [req])
        end
      else (st3, [])
  end.

(** [handleDataUpdate(type, newData)] passes no backend response. *)
Definition handleDataUpdate (st : State) (ty : string) (newData : list DataRow)
    (reply : fetch_outcome ValidateReply) : State * list request :=
  handleDataUpload st ty newData None reply.

(** [setRules([...rules, rule])] *)
Definition handleAddRule (st : State) (rule : Rule) : State :=
  setRules (rules st ++ [rule]) st.

(** [setRules(rules.filter(rule => rule.id !== ruleId))] *)
Definition handleRemoveRule (st : State) (ruleId : string) : State :=
  setRules (filter (λ rule, id rule ≠ ruleId) (rules st)) st.

(** [handleRuleSuggestionAccept(suggestion)]; [now] is [Date.now()]. *)
Definition suggestion_rule (suggestion : object) (now : Z) : Rule :=
  {| id := "suggestion_" +:+ pretty now;
     type := get suggestion "type";
     description := get suggestion "suggested_rule";
     parameters :=
       VObj (<["source" := VStr "ai_suggestion"]>
             (<["confidence" := get suggestion "confidence"]>
              (<["category" := get suggestion "category"]> ∅))) |}.

Definition handleRuleSuggestionAccept (st : State) (suggestion : object)
    (now : Z) : State :=
  setRules (rules st ++ [suggestion_rule suggestion now]) st.

Definition totalRecords (st : State) : nat :=
  (length (clientsData st) + length (workersData st) + length (tasksData st))%nat.

(** No table holds a row: the state before the first upload. *)
Definition tables_empty (st : State) : Prop :=
  clientsData st = [] ∧ workersData st = [] ∧ tasksData st = [].

(** [onPriorityChange={setPriorities}] *)
Definition setPriorities (p : Priority) (st : State) : State :=
  {| clientsData := clientsData st; workersData := workersData st;
     tasksData := tasksData st; rules := rules st; priorities := p;
     validationResult := validationResult st; activeTab := activeTab st;
     aiInsights := aiInsights st |}.

(** The "Data Quality" badge of the header:
    [validationResult?.is_valid ? 'Valid' : (validationResult ? 'Issues Found' : 'Not Checked')]. *)
Definition status_badge (st : State) : string :=
  match validationResult st with
  | Some r => if is_valid r then "✅ Valid" else "❌ Issues Found"
  | None => "⚪ Not Checked"
  end.

(** The report in force once the upload's own preview is taken in. *)
Definition after_preview (st : State) (resp : UploadResponse)
    : option ValidationReport :=
  match validation_preview resp with
  | Some vp => Some vp
  | None => validationResult st
  end.

End Home.

(** ** components/ExportPanel.tsx *)

Module ExportPanel.

(** The props; [Home] passes its tables, rules and priorities.  The
    validation result is not among them. *)
Record Props : Type := mkProps {
  data : list DataRow;
  rules : list Home.Rule;
  priorities : Home.Priority;
  clients_data : list DataRow;
  workers_data : list DataRow;
  tasks_data : list DataRow
}.

Record State : Type := mkState {
  isExporting : bool;
  exportStatus : string;
  exportedFiles : list string
}.

Definition initial : State :=
  {| isExporting := false; exportStatus := ""; exportedFiles := [] |}.

(** The object built by [prepareExportData]; [timestamp] is
    [new Date().toISOString()]. *)
Record ExportData : Type := mkExportData {
  export_clients : list DataRow;
  export_workers : list DataRow;
  export_tasks : list DataRow;
  export_rules : list Home.Rule;
  export_priorities : Home.Priority;
  export_timestamp : string
}.

Definition prepareExportData (p : Props) (timestamp : string) : ExportData :=
  {| export_clients := clients_data p; export_workers := workers_data p;
     export_tasks := tasks_data p; export_rules := rules p;
     export_priorities := priorities p; export_timestamp := timestamp |}.

Inductive effect : Type :=
| Post (url : string) (body : ExportData)
| Download (blob : string) (filename : string) (mediaType : string).

Definition export_url : string := "http://localhost:8000/export".

Definition zip_files : list string :=
  ["clean_clients.csv"; "clean_workers.csv"; "clean_tasks.csv";
   "rules_config.json"; "priority_config.json"; "deployment_config.json"].

(** [handleFullExport]; [now] is [Date.now()], [reply] the outcome of the
    awaited [axios.post].  The state returned is the one after [finally]. *)
Definition handleFullExport (p : Props) (st : State) (timestamp : string)
    (now : Z) (reply : axios_outcome string) : State * list effect :=
  let post := Post export_url (prepareExportData p timestamp) in
  match reply with
  | AxiosOk blob =>
      ({| isExporting := false;
          exportStatus := "✅ Full configuration exported successfully!";
          exportedFiles := zip_files |},
       [post;
        Download blob ("data-alchemist-export-" +:+ pretty now +:+ ".zip")
          "application/zip"])
  | AxiosError =>
      ({| isExporting := false;
          exportStatus := "❌ Export failed. Please try again.";
          exportedFiles := exportedFiles st |},
       [post])
  end.

Definition totalRecords (p : Props) : nat :=
  (length (clients_data p) + length (workers_data p) + length (tasks_data p))%nat.

(** [disabled={isExporting || totalRecords === 0}] on the package button. *)
Definition full_export_disabled (p : Props) (st : State) : bool :=
  isExporting st || Nat.eqb (totalRecords p) 0.

(** A click on "Export Complete Package": a disabled button fires nothing. *)
Definition click_full_export (p : Props) (st : State) (timestamp : string)
    (now : Z) (reply : axios_outcome string) : State * list effect :=
  if full_export_disabled p st then (st, [])
  else handleFullExport p st timestamp now reply.

(** The props [Home] passes on the export tab. *)
Definition props_of (h : Home.State) : Props :=
  {| data := Home.clientsData h ++ Home.workersData h ++ Home.tasksData h;
     rules := Home.rules h; priorities := Home.priorities h;
     clients_data := Home.clientsData h; workers_data := Home.workersData h;
     tasks_data := Home.tasksData h |}.

(** Is [e] the request that asks the back end for the full package? *)
Definition is_export_request (e : effect) : bool :=
  match e with
  | Post url _ => String.eqb url export_url
  | Download _ _ _ => false
  end.

Definition export_requested (es : list effect) : bool :=
  existsb is_export_request es.

(** The argument of [handleCSVExport]: ['clients' | 'workers' | 'tasks' | 'all']. *)
Inductive csv_type : Type := CsvClients | CsvWorkers | CsvTasks | CsvAll.

Definition csv_name (t : csv_type) : string :=
  match t with
  | CsvClients => "clients"
  | CsvWorkers => "workers"
  | CsvTasks => "tasks"
  | CsvAll => "all"
  end.

Definition csv_url (t : csv_type) : string :=
  "http://localhost:8000/export/csv/" +:+ csv_name t.

(** [`${type}_data_${new Date().toISOString().slice(0, 10)}.csv`]; [fileStamp]
    is the ISO string of the second [new Date()]. *)
Definition csv_filename (t : csv_type) (fileStamp : string) : string :=
  csv_name t +:+ "_data_" +:+ String.substring 0 10 fileStamp +:+ ".csv".

(** [handleCSVExport(type)]; the state returned is the one after [finally]. *)
Definition handleCSVExport (p : Props) (st : State) (t : csv_type)
    (timestamp fileStamp : string) (reply : axios_outcome string)
    : State * list effect :=
  let post := Post (csv_url t) (prepareExportData p timestamp) in
  match reply with
  | AxiosOk blob =>
      ({| isExporting := false;
          exportStatus :=
            "✅ " +:+ capitalize (csv_name t) +:+ " CSV exported successfully!";
          exportedFiles := [csv_filename t fileStamp] |},
       [post; Download blob (csv_filename t fileStamp) "text/csv"])
  | AxiosError =>
      ({| isExporting := false;
          exportStatus :=
            "❌ Failed to export " +:+ csv_name t +:+ " CSV. Please try again.";
          exportedFiles := exportedFiles st |},
       [post])
  end.

(** The number the button of [t] shows and tests: the rows of its table, or
    [totalRecords] for the combined file. *)
Definition csv_records (p : Props) (t : csv_type) : nat :=
  match t with
  | CsvClients => length (clients_data p)
  | CsvWorkers => length (workers_data p)
  | CsvTasks => length (tasks_data p)
  | CsvAll => totalRecords p
  end.

(** [disabled={isExporting || clients_data.length === 0}] and its siblings. *)
Definition csv_disabled (p : Props) (st : State) (t : csv_type) : bool :=
  isExporting st || Nat.eqb (csv_records p t) 0.

Definition click_csv_export (p : Props) (st : State) (t : csv_type)
    (timestamp fileStamp : string) (reply : axios_outcome string)
    : State * list effect :=
  if csv_disabled p st t then (st, [])
  else handleCSVExport p st t timestamp fileStamp reply.

(** The object [handlePreview] logs. *)
Record PreviewSummary : Type := mkPreviewSummary {
  totalClients : nat;
  totalWorkers : nat;
  totalTasks : nat;
  totalRules : nat;
  summary_priorities : Home.Priority
}.

Record ExportPreview : Type := mkExportPreview {
  preview_summary : PreviewSummary;
  sampleClientsData : list DataRow;
  sampleWorkersData : list DataRow;
  sampleTasksData : list DataRow;
  preview_rules : list (value * value)
}.

(** [handlePreview]: [slice(0, 3)] of each table, and of each rule its
    description and type. *)
Definition handlePreview (p : Props) : ExportPreview :=
  {| preview_summary :=
       {| totalClients := length (clients_data p);
          totalWorkers := length (workers_data p);
          totalTasks := length (tasks_data p);
          totalRules := length (rules p);
          summary_priorities := priorities p |};
     sampleClientsData := take 3 (clients_data p);
     sampleWorkersData := take 3 (workers_data p);
     sampleTasksData := take 3 (tasks_data p);
     preview_rules :=
       map (λ rule, (Home.description rule, Home.type rule)) (rules p) |}.

End ExportPanel.

(** ** components/RuleBuilder.tsx *)

Module RuleBuilder.

(** [v.k] on an [any]: reading a property of [undefined] or [null] throws
    ([None]); a primitive has none of the properties read here. *)
Definition prop (v : value) (k : string) : option value :=
  match v with
  | VUndef | VNull => None
  | VObj o => Some (get o k)
  | _ => Some VUndef
  end.

(** The rule built in the [try] block from [response.data]; [None] when
    building it throws. *)
Definition parsed_rule (ruleInput : string) (now : Z) (data : value)
    : option Home.Rule :=
  ty ← prop data "type";
  params ← prop data "parameters";
  Some {| Home.id := pretty now;
          Home.description := VStr ruleInput;
          Home.type := JS.or ty (VStr "custom");
          Home.parameters := JS.or params (VObj ∅) |}.

(** The rule built in the [catch] block. *)
Definition fallback_rule (ruleInput : string) (now : Z) : Home.Rule :=
  {| Home.id := pretty now;
     Home.description := VStr ruleInput;
     Home.type := VStr "custom";
     Home.parameters := VObj {[ "raw_query" := VStr ruleInput ]} |}.

(** [handleAddRule]: the new [ruleInput] and the rules handed to
    [onAddRule].  [reply] is the outcome of [POST /rules/generate]. *)
Definition handleAddRule (ruleInput : string) (now : Z)
    (reply : axios_outcome value) : string * list Home.Rule :=
  if negb (str_truthy (trim ruleInput)) then (ruleInput, [])
  else
    match reply with
    | AxiosOk data =>
        match parsed_rule ruleInput now data with
        | Some newRule => ("", [newRule])
        | None => ("", [fallback_rule ruleInput now])
        end
    | AxiosError => ("", [fallback_rule ruleInput now])
    end.

(** The five quick suggestions; a click copies one into the input
    ([handleSuggestionClick]). *)
Definition suggestions : list string :=
  ["T12 and T14 should run together";
   "Set priority to high for Phase 1 tasks";
   "Balance load across all workers";
   "Tasks with same client should be grouped";
   "No more than 3 tasks per worker simultaneously"].

Definition handleSuggestionClick (suggestion : string) : string := suggestion.

(** [disabled={!ruleInput.trim() || isProcessing}] on the Add Rule button. *)
Definition add_disabled (ruleInput : string) (isProcessing : bool) : bool :=
  negb (str_truthy (trim ruleInput)) || isProcessing.

(** The [query] of the [POST /rules/generate] that [handleAddRule] sends;
    [None] when it returns before the request. *)
Definition generate_query (ruleInput : string) : option string :=
  if negb (str_truthy (trim ruleInput)) then None else Some ruleInput.

End RuleBuilder.

(** ** components/NLModify.tsx *)

Module NLModify.

(** The parsed reply of [POST /modify/natural-language], as far as
    [handleSubmit] reads it.  An absent or non-numeric [total_changes] and
    absent [modified_*] arrays are [None]. *)
Record ModifyReply : Type := mkModifyReply {
  total_changes : option Z;
  modified_clients : option (list DataRow);
  modified_workers : option (list DataRow);
  modified_tasks : option (list DataRow)
}.

Record State : Type := mkState {
  isProcessing : bool;
  result : option ModifyReply;
  error : string
}.

(** One invocation of the [onDataUpdate] prop. *)
Definition update_call : Type := string * list DataRow.

(** [data.modified_x && data.modified_x.length > 0] guards the call. *)
Definition update_for (ty : string) (modified : option (list DataRow))
    : list update_call :=
  match modified with
  | Some rows => if nonempty rows then [(ty, rows)] else []
  | None => []
  end.

Definition updates_of (data : ModifyReply) : list update_call :=
  match total_changes data with
  | Some n =>
      if Z.ltb 0 n then
        update_for "clients" (modified_clients data)
        ++ update_for "workers" (modified_workers data)
        ++ update_for "tasks" (modified_tasks data)
      else []
  | None => []
  end.

(** [handleSubmit]: the state after the handler and the [onDataUpdate]
    calls it made, in order. *)
Definition handleSubmit (st : State) (query : string)
    (clientsData workersData tasksData : list DataRow)
    (reply : fetch_outcome ModifyReply) : State * list update_call :=
  if negb (str_truthy (trim query)) then
    ({| isProcessing := isProcessing st; result := result st;
        error := "Please enter a modification command" |}, [])
  else if Nat.eqb (length clientsData) 0 && Nat.eqb (length workersData) 0
          && Nat.eqb (length tasksData) 0 then
    ({| isProcessing := isProcessing st; result := result st;
        error := "No data available to modify. Please upload data first." |}, [])
  else
    match reply with
    | NetworkError message =>
        ({| isProcessing := false; result := None; error := message |}, [])
    | Response false statusText _ =>
        ({| isProcessing := false; result := None;
            error := "Failed to process modification: " +:+ statusText |}, [])
    | Response true _ (ParseError message) =>
        ({| isProcessing := false; result := None; error := message |}, [])
    | Response true _ (Parsed data) =>
        ({| isProcessing := false; result := Some data; error := "" |},
         updates_of data)
    end.

(** The parent's [onDataUpdate] is [Home.handleDataUpdate]; the calls of one
    submission all come from the same render of [Home], so each reads the
    state [h] of that render and React applies their setters in order. *)
Definition apply_updates (h : Home.State) (calls : list update_call)
    : Home.State :=
  foldl (λ acc call, Home.store_table call.1 call.2 acc) h calls.

(** The table after the calls of one reply: replaced by the [modified_*]
    array when that is present and holds a row, kept otherwise. *)
Definition replaced (old : list DataRow) (modified : option (list DataRow))
    : list DataRow :=
  match modified with
  | Some rows => if nonempty rows then rows else old
  | None => old
  end.

End NLModify.

(** ** components/VisualRuleBuilder.tsx *)

Module VisualRuleBuilder.

(** This component's own [interface Rule]. *)
Record Rule : Type := mkRule {
  id : string;
  type : string;
  name : value;
  parameters : object;
  isActive : bool
}.

(** The object handed to [JSON.stringify] for the preview.  The text shown
    is the serialisation of this object and is not computed here: what the
    serialiser alters (a field holding [undefined] is left out, a number
    that is not finite is printed as [null]) is altered in the text only. *)
Record Preview : Type := mkPreview {
  preview_type : string;
  preview_name : value;
  preview_parameters : object;
  preview_enforcement : value;
  preview_priority : value
}.

Record State : Type := mkState {
  activeTab : string;
  currentRule : object;
  jsonPreview : option Preview
}.

Definition initial : State :=
  {| activeTab := "corun"; currentRule := ∅; jsonPreview := None |}.

(** The ids of the six tabs in [ruleTypes]. *)
Definition ruleTypes : list string :=
  ["corun"; "priority"; "capacity"; "skills"; "timing"; "exclusion"].

(** [handleRuleChange(field, value)] *)
Definition handleRuleChange (st : State) (field : string) (v : value) : State :=
  let updatedRule := <[field := v]> (currentRule st) in
  {| activeTab := activeTab st;
     currentRule := updatedRule;
     jsonPreview :=
       Some {| preview_type := activeTab st;
               preview_name :=
                 JS.or (get updatedRule "name") (VStr (activeTab st +:+ "_rule"));
               preview_parameters := updatedRule;
               preview_enforcement :=
                 JS.or (get updatedRule "enforcement") (VStr "strict");
               preview_priority :=
                 JS.or (get updatedRule "priority") (VStr "medium") |} |}.

Inductive effect : Type :=
| Alert (text : string)
| OnAddRule (rule : Rule).

(** [createRule]; [now] is [Date.now()]. *)
Definition createRule (st : State) (now : Z) : State * list effect :=
  if negb (truthy (get (currentRule st) "name")) then
    (st, [Alert "Please provide a rule name"])
  else
    let newRule :=
      {| id := "rule_" +:+ pretty now;
         type := activeTab st;
         name := get (currentRule st) "name";
         parameters := currentRule st;
         isActive := true |} in
    ({| activeTab := activeTab st; currentRule := ∅; jsonPreview := None |},
     [OnAddRule newRule]).

(** The rules handed to [onAddRule] among the effects. *)
Definition added (es : list effect) : list Rule :=
  omap (λ e, match e with OnAddRule r => Some r | Alert _ => None end) es.

(** A click on a rule-type tab: [setActiveTab(type.id); setCurrentRule({});
    setJsonPreview('')]. *)
Definition selectTab (st : State) (tab : string) : State :=
  {| activeTab := tab; currentRule := ∅; jsonPreview := None |}.

(** The Reset button: [setCurrentRule({}); setJsonPreview('')]. *)
Definition resetRule (st : State) : State :=
  {| activeTab := activeTab st; currentRule := ∅; jsonPreview := None |}.

(** [disabled={!currentRule.name}] on the Add Rule button. *)
Definition add_disabled (st : State) : bool :=
  negb (truthy (get (currentRule st) "name")).

(** [currentRule.tasks || []] as the array the checkbox handler spreads and
    filters.  A truthy value that is not an array makes the handler throw or
    spread a string; the handlers below are the only writers of these fields
    and store arrays, so that case is [None]. *)
Definition as_array (v : value) : option (list value) :=
  if truthy v then
    match v with
    | VArr l => Some l
    | _ => None
    end
  else Some [].

(** The [onChange] of a task or worker checkbox, for the fields [tasks],
    [specificTasks] and [targetWorkers]: checked appends the item,
    unchecked filters it out with [t !== item]. *)
Definition toggle (st : State) (field item : string) (checked : bool)
    : option State :=
  l ← as_array (get (currentRule st) field);
  Some (handleRuleChange st field
          (VArr (if checked then l ++ [VStr item]
                 else List.filter (λ t, negb (is_str item t)) l))).

(** [checked={currentRule.tasks?.includes(item) || false}] *)
Definition is_checked (st : State) (field item : string) : option bool :=
  match get (currentRule st) field with
  | VUndef | VNull => Some false
  | VArr l => Some (existsb (is_str item) l)
  | _ => None
  end.

(** What the user can do in the builder.  A changed field holds a string,
    an array of strings or an integer; a number field that the user clears
    stores [NaN], which is outside the integers of the embedding. *)
Inductive event : Type :=
| SelectTab (tab : string)
| Change (field : string) (v : value)
| Reset
| Create (now : Z).

Definition step (st : State) (e : event) : State :=
  match e with
  | SelectTab tab => selectTab st tab
  | Change field v => handleRuleChange st field v
  | Reset => resetRule st
  | Create now => (createRule st now).1
  end.

(** The builder after a sequence of events, from its first render. *)
Definition run (es : list event) : State := foldl step initial es.

(** The tabs rendered are those of [ruleTypes]: an event selects one of them. *)
Definition selects_listed_tab (e : event) : Prop :=
  match e with
  | SelectTab tab => tab ∈ ruleTypes
  | _ => True
  end.

(** "Active Rules": the first three rules are listed, and the number of the
    others when there are more than three. *)
Definition rules_summary (rules : list Rule) : list Rule * option nat :=
  (take 3 rules,
   if Nat.ltb 3 (length rules) then Some (length rules - 3)%nat else None).

(** The preview agrees with the form: the object it was serialised from
    holds the selected tab, the fields entered and the defaults computed from
    them, and the form then holds a field; there is no preview when the form
    is empty. *)
Definition preview_ok (st : State) : Prop :=
  match jsonPreview st with
  | Some p =>
      preview_type p = activeTab st
      ∧ preview_parameters p = currentRule st
      ∧ preview_name p
        = JS.or (get (currentRule st) "name") (VStr (activeTab st +:+ "_rule"))
      ∧ preview_enforcement p
        = JS.or (get (currentRule st) "enforcement") (VStr "strict")
      ∧ preview_priority p
        = JS.or (get (currentRule st) "priority") (VStr "medium")
      ∧ currentRule st ≠ ∅
  | None => currentRule st = ∅
  end.

End VisualRuleBuilder.

(** ** components/ValidationSummary.tsx

    The JSX is embedded as the data it puts on screen: one card per error,
    per warning and per summary entry.  A JSX child [c && <span/>] renders the
    span when [c] is truthy and nothing otherwise. *)

Module ValidationSummary.

Import Report.

(** [s.replace('_', ' ')]: with a string pattern only the first occurrence
    is replaced. *)
Fixpoint replace_underscore (s : string) : string :=
  match s with
  | String c s' =>
      if Ascii.eqb c "_"%char then String " "%char s'
      else String c (replace_underscore s')
  | EmptyString => EmptyString
  end.

(** [x && ...] on a nullable string: rendered when present and not empty. *)
Definition shown (x : option string) : option string :=
  match x with
  | Some s => if str_truthy s then Some s else None
  | None => None
  end.

(** [row_index >= 0 && <span>Row: {row_index + 1}</span>] *)
Definition row_badge (row_index : Z) : option Z :=
  if Z.leb 0 row_index then Some (row_index + 1) else None.

Record IssueCard : Type := mkCard {
  card_label : string;
  card_column : option string;
  card_row : option Z;
  card_message : string;
  card_suggestion : option string;
  card_cell_value : option string;
  card_fix_button : bool
}.

(** [error_type?.replace('_', ' ') || fallback] *)
Definition label (error_type fallback : string) : string :=
  let l := replace_underscore error_type in
  if str_truthy l then l else fallback.

Definition error_card (e : Issue) : IssueCard :=
  {| card_label := label (error_type e) "Error";
     card_column := shown (column e);
     card_row := row_badge (row_index e);
     card_message := message e;
     card_suggestion := shown (suggested_fix e);
     card_cell_value := cell_value e;
     card_fix_button := bool_decide (is_Some (shown (suggested_fix e))) |}.

(** A warning card has neither the current value nor the fix button. *)
Definition warning_card (w : Issue) : IssueCard :=
  {| card_label := label (error_type w) "Warning";
     card_column := shown (column w);
     card_row := row_badge (row_index w);
     card_message := message w;
     card_suggestion := shown (suggested_fix w);
     card_cell_value := None;
     card_fix_button := false |}.

Definition quote : string := String (Ascii.ascii_of_nat 34) EmptyString.

(** One [<li>] of the examples list. *)
Definition example_line (ex : SummaryExample) : string :=
  match shown (ex_column ex) with
  | Some c => "Column " +:+ quote +:+ c +:+ quote
  | None => ""
  end
  +:+ (if Z.leb 0 (ex_row ex) then " (Row " +:+ pretty (ex_row ex + 1) +:+ ")" else "")
  +:+ ": " +:+ ex_message ex.

(** [details.examples.slice(0, 3).map(...)], under the guard
    [details.examples && details.examples.length > 0]. *)
Definition example_lines (exs : list SummaryExample) : list string :=
  if nonempty exs then map example_line (take 3 exs) else [].

Record SummaryCard : Type := mkSummaryCard {
  sc_title : string;
  sc_critical : bool;
  sc_count : nat;
  sc_examples : list string
}.

Definition summary_card (entry : string * SummaryEntry) : SummaryCard :=
  {| sc_title := replace_underscore entry.1;
     sc_critical := bool_decide (entry_severity entry.2 = Critical);
     sc_count := count entry.2;
     sc_examples := example_lines (examples entry.2) |}.

Record View : Type := mkView {
  v_is_valid : bool;
  v_total_errors : nat;
  v_total_warnings : nat;
  v_total_issues : nat;
  v_errors : list IssueCard;
  v_warnings : list IssueCard;
  v_summary : list SummaryCard;
  v_recommendations : list string
}.

(** The component: [None] is the "No Validation Data" placeholder. *)
Definition render (validationResult : option ValidationReport) : option View :=
  match validationResult with
  | None => None
  | Some r =>
      Some {| v_is_valid := is_valid r;
              v_total_errors := total_errors r;
              v_total_warnings := total_warnings r;
              v_total_issues := (length (errors r) + length (warnings r))%nat;
              v_errors := map error_card (errors r);
              v_warnings := map warning_card (warnings r);
              v_summary := map summary_card (summary r);
              v_recommendations := recommendations r |}
  end.

(** Does [s] hold no underscore? *)
Fixpoint no_underscore (s : string) : bool :=
  match s with
  | String c s' => negb (Ascii.eqb c "_"%char) && no_underscore s'
  | EmptyString => true
  end.

End ValidationSummary.

(** ** The Diagnostic Reporter

    The report is computed by the back end ([backend/validators/engine.py]),
    which is not among the sources; the front end only displays it.  The
    reporter below follows §4.6 of the specification. *)

Module Reporter.

Import Report.

(** Modelled from the spec: "exact duplicates (same error_type, row_index,
    column, message)"; the back end's reporter is missing from the sources. *)
Definition same_issue (a b : Issue) : Prop :=
  error_type a = error_type b ∧ row_index a = row_index b
  ∧ column a = column b ∧ message a = message b.

#[global] Instance same_issue_dec (a b : Issue) : Decision (same_issue a b).
Proof. unfold same_issue. apply _. Defined.

(** Modelled from the spec: "deduplicates exact duplicates"; the first
    occurrence of an issue stays, later duplicates of it are dropped. *)
Fixpoint dedupe (l : list Issue) : list Issue :=
  match l with
  | [] => []
  | x :: l' => x :: filter (λ y, ¬ same_issue x y) (dedupe l')
  end.

(** Modelled from the spec: the order "(row_index, column)"; an absent
    column comes before a named one, names compare as strings. *)
Definition column_leb (a b : option string) : bool :=
  match a, b with
  | None, _ => true
  | Some _, None => false
  | Some x, Some y => String.leb x y
  end.

Definition issue_leb (a b : Issue) : bool :=
  if Z.ltb (row_index a) (row_index b) then true
  else if Z.ltb (row_index b) (row_index a) then false
  else column_leb (column a) (column b).

Fixpoint insert_issue (x : Issue) (l : list Issue) : list Issue :=
  match l with
  | [] => [x]
  | y :: l' => if issue_leb x y then x :: l else y :: insert_issue x l'
  end.

(** Modelled from the spec: "sorts by (row_index, column) with
    dataset/rule-level issues (row_index = -1) first"; an insertion sort. *)
Definition sort_issues (l : list Issue) : list Issue :=
  foldr insert_issue [] l.

Definition is_critical (i : Issue) : Prop := issue_severity i = Critical.

#[global] Instance is_critical_dec (i : Issue) : Decision (is_critical i).
Proof. unfold is_critical. apply _. Defined.

Definition example_of (i : Issue) : SummaryExample :=
  {| ex_column := column i; ex_row := row_index i; ex_message := message i |}.

(** The error types present, each once, in order of first appearance. *)
Fixpoint types_of (l : list Issue) : list string :=
  match l with
  | [] => []
  | i :: l' => error_type i :: filter (λ t, t ≠ error_type i) (types_of l')
  end.

(** Modelled from the spec: "count + severity + first 3 examples per
    error_type"; the severity is that of the first issue of the type. *)
Definition summary_entry (l : list Issue) (t : string) : SummaryEntry :=
  let of_type := filter (λ i, error_type i = t) l in
  {| count := length of_type;
     entry_severity :=
       match of_type with
       | i :: _ => issue_severity i
       | [] => Warning
       end;
     examples := map example_of (take 3 of_type) |}.

Definition build_summary (l : list Issue) : list (string * SummaryEntry) :=
  map (λ t, (t, summary_entry l t)) (types_of l).

(** Modelled from the spec: "if duplicate_id count > 0, recommend Resolve
    duplicate identifiers before export", the one recommendation the
    specification spells out. *)
Definition build_recommendations (l : list Issue) : list string :=
  if bool_decide (Exists (λ i, error_type i = "duplicate_id") l)
  then ["Resolve duplicate identifiers before export"]
  else [].

(** Modelled from the spec: the Diagnostic Reporter of §4.6, which "merges
    all issue streams, deduplicates exact duplicates, sorts, computes
    total_errors/total_warnings/is_valid, builds the summary map and derives
    recommendations"; the back end that implements it is missing. *)
Definition build_report (streams : list (list Issue)) : ValidationReport :=
  let issues := sort_issues (dedupe (concat streams)) in
  let errs := filter is_critical issues in
  let warns := filter (λ i, ¬ is_critical i) issues in
  {| is_valid := Nat.eqb (length errs) 0;
     total_errors := length errs;
     total_warnings := length warns;
     errors := errs;
     warnings := warns;
     summary := build_summary issues;
     recommendations := build_recommendations issues |}.

End Reporter.

(** ** The data tab of [Home] (app/layout.tsx)

    Each table that holds a row gets a [DataGrid] whose [onDataUpdate] is the
    table's setter. *)

Module DataTab.

Inductive table : Type := Clients | Workers | Tasks.

Definition table_rows (st : Home.State) (t : table) : list DataRow :=
  match t with
  | Clients => Home.clientsData st
  | Workers => Home.workersData st
  | Tasks => Home.tasksData st
  end.

(** [onDataUpdate={(newData) => setClientsData(newData)}] and its siblings. *)
Definition onDataUpdate (st : Home.State) (t : table) (newData : list DataRow)
    : Home.State :=
  match t with
  | Clients => Home.setClientsData newData st
  | Workers => Home.setWorkersData newData st
  | Tasks => Home.setTasksData newData st
  end.

(** [{clientsData.length > 0 && <DataGrid data={clientsData} .../>}]: the rows
    the grid of [t] shows, when it is rendered. *)
Definition grid_rows (st : Home.State) (t : table) : option (list DataRow) :=
  if nonempty (table_rows st t) then Some (DataGrid.rows (table_rows st t))
  else None.

(** The grid reports an edit through [onRowsChange], [DataGrid] strips the
    ids and calls [onDataUpdate]. *)
Definition onRowsChange (st : Home.State) (t : table) (newRows : list DataRow)
    : Home.State :=
  onDataUpdate st t (DataGrid.handleRowsChange newRows).

End DataTab.

(** ** components/PriorityPanel.tsx *)

Module PriorityPanel.

(** [keyof Priority] *)
Inductive key : Type := Fairness | LoadBalance | PriorityLevel.

#[global] Instance key_eq_dec : EqDecision key.
Proof. solve_decision. Defined.

(** [priorities[key]] *)
Definition read (p : Home.Priority) (k : key) : Z :=
  match k with
  | Fairness => Home.fairness p
  | LoadBalance => Home.loadBalance p
  | PriorityLevel => Home.priorityLevel p
  end.

(** [handleSliderChange(key, value)]: the object handed to
    [onPriorityChange], [{...priorities, [key]: value}]. *)
Definition handleSliderChange (priorities : Home.Priority) (k : key) (v : Z)
    : Home.Priority :=
  match k with
  | Fairness =>
      {| Home.fairness := v; Home.loadBalance := Home.loadBalance priorities;
         Home.priorityLevel := Home.priorityLevel priorities |}
  | LoadBalance =>
      {| Home.fairness := Home.fairness priorities; Home.loadBalance := v;
         Home.priorityLevel := Home.priorityLevel priorities |}
  | PriorityLevel =>
      {| Home.fairness := Home.fairness priorities;
         Home.loadBalance := Home.loadBalance priorities;
         Home.priorityLevel := v |}
  end.

(** The three wordings of a line of "Current Configuration": below 30,
    above 70, in between. *)
Record wording : Type := mkWording {
  low : string;
  high : string;
  middle : string
}.

Definition wording_of (k : key) : wording :=
  match k with
  | Fairness =>
      {| low := "Efficiency-focused"; high := "Equal distribution priority";
         middle := "Balanced approach" |}
  | LoadBalance =>
      {| low := "Concentrated workload"; high := "Widely distributed";
         middle := "Moderate distribution" |}
  | PriorityLevel =>
      {| low := "Flexible scheduling"; high := "Strict priority enforcement";
         middle := "Balanced priority handling" |}
  end.

(** [w < 30 ? low : w > 70 ? high : middle] *)
Definition summary_line (p : Home.Priority) (k : key) : string :=
  let w := read p k in
  if Z.ltb w 30 then low (wording_of k)
  else if Z.ltb 70 w then high (wording_of k)
  else middle (wording_of k).

(** A slider moved in [Home]: [onPriorityChange] is [setPriorities]. *)
Definition slide (st : Home.State) (k : key) (v : Z) : Home.State :=
  Home.setPriorities (handleSliderChange (Home.priorities st) k v) st.

End PriorityPanel.

(** ** The rules tab of [Home] (app/layout.tsx)

    [<RuleBuilder onAddRule={handleAddRule} onRemoveRule={handleRemoveRule}
    rules={rules}/>].  [st] is the state of the render whose handlers run;
    the operations below are composed across renders, each on the state the
    previous one left. *)

Module RulesTab.

(** The Add Rule button: [RuleBuilder.handleAddRule] hands its rule to
    [Home.handleAddRule]. *)
Definition addRule (st : Home.State) (ruleInput : string) (now : Z)
    (reply : axios_outcome value) : Home.State :=
  foldl Home.handleAddRule st (RuleBuilder.handleAddRule ruleInput now reply).2.

(** The remove button of a listed rule: [onRemoveRule(rule.id)]. *)
Definition removeRule (st : Home.State) (rule : Home.Rule) : Home.State :=
  Home.handleRemoveRule st (Home.id rule).

End RulesTab.

(** ** components/FileUpload.tsx *)

Module FileUpload.

(** The parsed reply of [POST /upload]: the fields [processFile] destructures
    ([data] and [headers], absent when the reply lacks them) and the object
    as a whole, which is handed on as [backendResponse]. *)
Record UploadResult : Type := mkUploadResult {
  data : option (list DataRow);
  headers : option (list string);
  response : Home.UploadResponse
}.

Record State : Type := mkState {
  isProcessing : bool;
  uploadStatus : string
}.

(** One invocation of [onDataUpload(data, headers, result)]. *)
Record upload_call : Type := mkCall {
  call_data : option (list DataRow);
  call_headers : option (list string);
  call_response : Home.UploadResponse
}.

Definition failed (message : string) : State :=
  {| isProcessing := false;
     uploadStatus := "❌ Error uploading file: " +:+ message |}.

(** [processFile(file)]: the state after [finally] and the calls of
    [onDataUpload].  The parent is called before [data.length] is read for
    the status line; [typeError] is the message of the error that read
    throws when [data] is absent. *)
Definition processFile (reply : fetch_outcome UploadResult) (typeError : string)
    : State * list upload_call :=
  match reply with
  | NetworkError message => (failed message, [])
  | Response false statusText _ => (failed ("Upload failed: " +:+ statusText), [])
  | Response true _ (ParseError message) => (failed message, [])
  | Response true _ (Parsed result) =>
      let call :=
        {| call_data := data result; call_headers := headers result;
           call_response := response result |} in
      match data result with
      | Some rows =>
          ({| isProcessing := false;
              uploadStatus :=
                "✅ Successfully processed " +:+ pretty (length rows)
                +:+ " rows with AI insights" |},
           [call])
      | None => (failed typeError, [call])
      end
  end.

(** [onDrop(acceptedFiles)]: the first accepted file is processed, if any. *)
Definition onDrop {File : Type} (acceptedFiles : list File) : option File :=
  head acceptedFiles.

(** [onDataUpload={(data, headers, response) => handleDataUpload(type, data,
    response)}] in [Home].  A call without rows stores [undefined] as the
    table, on which the next render of [Home] fails: [None]. *)
Definition deliver (st : Home.State) (ty : string) (call : upload_call)
    (reply : fetch_outcome Home.ValidateReply)
    : option (Home.State * list Home.request) :=
  rows ← call_data call;
  Some (Home.handleDataUpload st ty rows (Some (call_response call)) reply).

End FileUpload.

(** ** components/RuleSuggestions.tsx *)

Module RuleSuggestions.

Record State : Type := mkState {
  suggestions : list object;
  loading : bool;
  error : string
}.

(** The parsed reply of [POST /suggestions/ai-for-data]: [result.suggestions],
    absent or an array. *)
Record SuggestionsReply : Type := mkSuggestionsReply {
  reply_suggestions : option (list object)
}.

(** The [useEffect] fetches when a table holds a row; with three empty
    tables the component shows its placeholder, without a refresh button. *)
Definition fetch_enabled (clientsData workersData tasksData : list DataRow) : bool :=
  nonempty clientsData || nonempty workersData || nonempty tasksData.

(** [fetchSuggestions]: the state after [finally]. *)
Definition fetchSuggestions (reply : fetch_outcome SuggestionsReply) : State :=
  match reply with
  | NetworkError message =>
      {| suggestions := []; loading := false; error := message |}
  | Response false statusText _ =>
      {| suggestions := []; loading := false;
         error := "Failed to fetch suggestions: " +:+ statusText |}
  | Response true _ (ParseError message) =>
      {| suggestions := []; loading := false; error := message |}
  | Response true _ (Parsed result) =>
      {| suggestions := default [] (reply_suggestions result);
         loading := false; error := "" |}
  end.

(** [prev.filter(s => s.id !== id)]; [None] when a comparison is between two
    arrays or objects. *)
Fixpoint without_id (id : value) (prev : list object) : option (list object) :=
  match prev with
  | [] => Some []
  | s :: prev' =>
      match strict_eq (get s "id") id, without_id id prev' with
      | Some true, Some rest => Some rest
      | Some false, Some rest => Some (s :: rest)
      | _, _ => None
      end
  end.

(** [handleAccept(suggestion)]: the new state and the suggestion handed to
    [onAcceptSuggestion]. *)
Definition handleAccept (st : State) (suggestion : object)
    : option (State * list object) :=
  rest ← without_id (get suggestion "id") (suggestions st);
  Some ({| suggestions := rest; loading := loading st; error := error st |},
        [suggestion]).

(** The Accept Rule button in [Home]: [onAcceptSuggestion] is
    [handleRuleSuggestionAccept]; [now] is its [Date.now()]. *)
Definition accept (h : Home.State) (st : State) (suggestion : object) (now : Z)
    : option (Home.State * State) :=
  out ← handleAccept st suggestion;
  Some (foldl (λ acc s, Home.handleRuleSuggestionAccept acc s now) h out.2, out.1).

End RuleSuggestions.

(** ** The rule kinds of the specification *)

Module RuleKind.

(** Modelled from the spec: the fixed enum "CoRun | Exclusion | Priority |
    Capacity | SkillMatch | Timing" of [Rule.kind]; no source file declares
    it, the front end types a rule's [type] as [string]. *)
Definition kinds : list string :=
  ["CoRun"; "Exclusion"; "Priority"; "Capacity"; "SkillMatch"; "Timing"].

(** A [type] is of the enum when it is a string spelled as one of the kinds,
    or as one of the six tab ids the visual builder uses for them. *)
Definition is_fixed_kind (ty : value) : bool :=
  match ty with
  | VStr s => bool_decide (s ∈ kinds ++ VisualRuleBuilder.ruleTypes)
  | _ => false
  end.

End RuleKind.

(** ** Sample data

    Rows and reports in the format of the README's samples, used to run the
    handlers on concrete inputs. *)

Module Samples.

Import Report.

Definition client_row : DataRow :=
  <["ClientID" := VStr "C001"]> (<["Budget" := VNum 50000]> ∅).

Definition worker_row : DataRow :=
  <["WorkerID" := VStr "W001"]> (<["MaxLoad" := VNum 5]> ∅).

Definition row_with_id : DataRow :=
  <["id" := VNum 7]> (<["Name" := VStr "TechCorp"]> ∅).

Definition duplicate_worker : Issue :=
  {| error_type := "duplicate_id"; issue_severity := Critical; row_index := 1;
     column := Some "WorkerID"; message := "Duplicate WorkerID W001";
     suggested_fix := Some "Rename to W001_2"; cell_value := Some "W001" |}.

Definition saturated_phase : Issue :=
  {| error_type := "phase_saturation"; issue_severity := Warning; row_index := -1;
     column := None; message := "Phase 1 needs 3 Design, 2 available";
     suggested_fix := None; cell_value := None |}.

(** A report with one critical issue: [is_valid] is false. *)
Definition failing_report : ValidationReport :=
  Reporter.build_report [[duplicate_worker]; [saturated_phase]].

(** [Home] after the clients table was uploaded and found invalid. *)
Definition invalid_home : Home.State :=
  Home.setValidationResult (Some failing_report)
    (Home.setClientsData [client_row] Home.initial).

(** The reply of [POST /upload] for a clients file, without a preview. *)
Definition upload_reply : Home.UploadResponse :=
  {| Home.validation_preview := None; Home.upload_fields := ∅ |}.

Definition validated : fetch_outcome Home.ValidateReply :=
  Response true "OK" (Parsed {| Home.validation_result := Some failing_report |}).

Definition modify_reply : NLModify.ModifyReply :=
  {| NLModify.total_changes := Some 1;
     NLModify.modified_clients := None;
     NLModify.modified_workers := Some [worker_row];
     NLModify.modified_tasks := Some [] |}.

(** The visual builder after a name was entered on the capacity tab. *)
Definition named_capacity : VisualRuleBuilder.State :=
  VisualRuleBuilder.handleRuleChange
    {| VisualRuleBuilder.activeTab := "capacity";
       VisualRuleBuilder.currentRule := ∅;
       VisualRuleBuilder.jsonPreview := None |}
    "name" (VStr "Max three tasks").

(** U+00A0, the no-break space, as its two UTF-8 bytes. *)
Definition nbsp : string :=
  String (Ascii.ascii_of_nat 194) (String (Ascii.ascii_of_nat 160) EmptyString).

(** U+FEFF and U+2003 (em space), three bytes each. *)
Definition bom : string :=
  String (Ascii.ascii_of_nat 239)
    (String (Ascii.ascii_of_nat 187) (String (Ascii.ascii_of_nat 191) EmptyString)).

Definition em_space : string :=
  String (Ascii.ascii_of_nat 226)
    (String (Ascii.ascii_of_nat 128) (String (Ascii.ascii_of_nat 131) EmptyString)).

End Samples.

(** * Properties *)

(** ** Helper lemmas *)

Lemma nonempty_nil {A : Type} (l : list A) : nonempty l = false ↔ l = [].
Proof. by destruct l. Qed.

Lemma nonempty_true {A : Type} (l : list A) : nonempty l = true ↔ l ≠ [].
Proof. by destruct l. Qed.

Lemma str_truthy_false (s : string) : str_truthy s = false ↔ s = "".
Proof.
  unfold str_truthy. rewrite negb_false_iff. apply String.eqb_eq.
Qed.

(** ** The definitions on concrete inputs *)

Section Checks.

Example trim_both_ends : trim "  T1 and T2 must co-run  " = "T1 and T2 must co-run".
Proof. reflexivity. Qed.

Example trim_blank : trim "   " = "" ∧ str_truthy (trim "   ") = false.
Proof. split; reflexivity. Qed.

Example or_defaults :
  JS.or VUndef (VStr "custom") = VStr "custom"
  ∧ JS.or (VStr "") (VStr "custom") = VStr "custom"
  ∧ JS.or (VStr "coRun") (VStr "custom") = VStr "coRun"
  ∧ JS.or (VNum 0) (VNum 3) = VNum 3.
Proof. split_and!; reflexivity. Qed.

Example grid_ids :
  (λ row, get row "id")
    <$> DataGrid.rows [Samples.client_row; Samples.client_row; Samples.row_with_id]
  = [VNum 0; VNum 1; VNum 7].
Proof. by vm_compute. Qed.

Example label_first_underscore :
  ValidationSummary.label "out_of_range" "Error" = "out of_range"
  ∧ ValidationSummary.label "" "Error" = "Error".
Proof. split; reflexivity. Qed.

Example error_card_rows :
  ValidationSummary.card_row (ValidationSummary.error_card Samples.duplicate_worker)
  = Some 2
  ∧ ValidationSummary.card_row (ValidationSummary.warning_card Samples.saturated_phase)
    = None.
Proof. split; reflexivity. Qed.

Example example_line_text :
  ValidationSummary.example_line (Reporter.example_of Samples.duplicate_worker)
  = "Column " +:+ ValidationSummary.quote +:+ "WorkerID" +:+ ValidationSummary.quote
    +:+ " (Row 2): Duplicate WorkerID W001"
  ∧ ValidationSummary.example_line (Reporter.example_of Samples.saturated_phase)
    = ": Phase 1 needs 3 Design, 2 available".
Proof. split; by vm_compute. Qed.

Example report_order :
  Report.row_index <$>
    (Reporter.sort_issues [Samples.duplicate_worker; Samples.saturated_phase])
  = [-1; 1].
Proof. by vm_compute. Qed.

Example report_dedupe :
  Reporter.dedupe
    [Samples.duplicate_worker; Samples.saturated_phase; Samples.duplicate_worker]
  = [Samples.duplicate_worker; Samples.saturated_phase].
Proof. by vm_compute. Qed.

Example suggestion_rule_id :
  Home.id (Home.suggestion_rule ∅ 1735689600000) = "suggestion_1735689600000".
Proof. by vm_compute. Qed.

Example trim_unicode_space :
  trim Samples.nbsp = ""
  ∧ blank (Samples.nbsp +:+ " " +:+ Samples.bom +:+ Samples.em_space) = true
  ∧ trim (Samples.bom +:+ " T1 and T2" +:+ Samples.nbsp +:+ Samples.em_space)
    = "T1 and T2"
  ∧ trim ("a" +:+ Samples.nbsp +:+ "b") = "a" +:+ Samples.nbsp +:+ "b".
Proof. split_and!; by vm_compute. Qed.

(** A letter whose last byte is that of the no-break space is kept. *)
Example trim_keeps_letters : trim " voilà " = "voilà" ∧ blank "à" = false.
Proof. split; by vm_compute. Qed.

Example blank_input_adds_nothing :
  RuleBuilder.handleAddRule Samples.nbsp 1735689600000 AxiosError
  = (Samples.nbsp, [])
  ∧ RuleBuilder.add_disabled Samples.nbsp false = true
  ∧ (NLModify.handleSubmit
       {| NLModify.isProcessing := false; NLModify.result := None;
          NLModify.error := "" |}
       Samples.nbsp [Samples.client_row] [] [] (NetworkError "Failed to fetch")).2
    = [].
Proof. split_and!; by vm_compute. Qed.

End Checks.

(** ** The data grid *)

Section DataGridFacts.

Import DataGrid.

Lemma delete_grid_row (index : nat) (row : DataRow) :
  delete "id" (grid_row index row) = delete "id" row.
Proof. unfold grid_row. apply delete_insert_eq. Qed.

Lemma handleRowsChange_rows (data : list DataRow) :
  handleRowsChange (rows data) = map (delete "id") data.
Proof.
  unfold handleRowsChange, rows.
  apply list_eq; intros i.
  rewrite !list_lookup_fmap, list_lookup_imap.
  destruct (data !! i) as [row|]; simpl; [|done].
  by rewrite delete_grid_row.
Qed.

Lemma handleRowsChange_no_id (newRows : list DataRow) :
  Forall (λ row : DataRow, row !! "id" = None) (handleRowsChange newRows).
Proof.
  unfold handleRowsChange. apply Forall_fmap, Forall_true.
  intros row. simpl. apply lookup_delete_eq.
Qed.

(** C8: a dataset whose records have no [id] field survives the trip through
    the grid rows and back through [handleRowsChange] unchanged; whatever
    rows the grid hands back, every record [handleRowsChange] passes to
    [onDataUpdate] is the row without its [id] field, so a record that had a
    column named [id] loses it, the other columns staying as they are. *)
Theorem grid_round_trip (data newRows : list DataRow) :
  Forall (λ row : DataRow, row !! "id" = None) data →
  handleRowsChange (rows data) = data
  ∧ handleRowsChange (rows newRows) = map (delete "id") newRows
  ∧ Forall (λ row : DataRow, row !! "id" = None) (handleRowsChange newRows)
  ∧ (∀ (i : nat) (row : DataRow), newRows !! i = Some row →
       ∃ row' : DataRow, handleRowsChange newRows !! i = Some row'
         ∧ row' !! "id" = None
         ∧ ∀ k : string, k ≠ "id" → row' !! k = row !! k).
Proof.
  intros Hno. repeat split.
  - rewrite handleRowsChange_rows.
    induction Hno as [|row data Hrow _ IH]; simpl; [done|].
    by rewrite IH, delete_id.
  - apply handleRowsChange_rows.
  - apply handleRowsChange_no_id.
  - intros i row Hi. exists (delete "id" row).
    unfold handleRowsChange. rewrite list_lookup_fmap, Hi. simpl.
    split; [done|]. split; [apply lookup_delete_eq|].
    intros k Hk. by apply lookup_delete_ne.
Qed.

Lemma grid_round_trip_witness :
  handleRowsChange (rows [Samples.client_row; Samples.client_row]) = [Samples.client_row; Samples.client_row]
  ∧ handleRowsChange (rows [Samples.row_with_id]) = map (delete "id") [Samples.row_with_id].
Proof.
  pose proof (grid_round_trip [Samples.client_row; Samples.client_row] [Samples.row_with_id]) as H.
  destruct H as (H1 & H2 & _).
  - repeat constructor.
  - split; [exact H1 | exact H2].
Defined.

(** The grid edit drops the column: the row that had [id = 7] comes back
    without it. *)
Example grid_drops_id_column :
  handleRowsChange (rows [Samples.row_with_id]) = [<["Name" := VStr "TechCorp"]> ∅].
Proof.
  rewrite handleRowsChange_rows. unfold Samples.row_with_id. simpl.
  by rewrite delete_insert_eq, delete_id.
Qed.

End DataGridFacts.

(** ** The rule list of [Home] *)

Section RuleListFacts.

Import Home.

Lemma filter_length_split {A : Type} (P : A → Prop) `{!∀ x, Decision (P x)}
    (l : list A) :
  (length (filter P l) + length (filter (λ x, ¬ P x) l) = length l)%nat.
Proof.
  induction l as [|x l IH]; [done|].
  rewrite !filter_cons. destruct (decide (P x)) as [HP|HP].
  - rewrite decide_False by tauto. simpl. lia.
  - rewrite decide_True by tauto. simpl. lia.
Qed.

(** C7: [handleAddRule] puts the new rule at the end and leaves every rule
    already in the list at its position; [handleRemoveRule] keeps, in their
    order, exactly the rules whose id differs from [ruleId]: the result is a
    subsequence of the list, holds no rule with that id, and is shorter by
    the number of rules that had it.  Neither touches the tables. *)
Theorem rule_list_maintenance (st : State) (rule : Rule) (ruleId : string) :
  let added := rules (handleAddRule st rule) in
  let kept := rules (handleRemoveRule st ruleId) in
  added = rules st ++ [rule]
  ∧ (∀ (i : nat) (r : Rule), rules st !! i = Some r → added !! i = Some r)
  ∧ added !! length (rules st) = Some rule
  ∧ length added = S (length (rules st))
  ∧ kept `sublist_of` rules st
  ∧ (∀ r : Rule, r ∈ kept ↔ r ∈ rules st ∧ id r ≠ ruleId)
  ∧ (length kept + length (filter (λ r, id r = ruleId) (rules st))
     = length (rules st))%nat
  ∧ clientsData (handleAddRule st rule) = clientsData st
  ∧ workersData (handleAddRule st rule) = workersData st
  ∧ tasksData (handleAddRule st rule) = tasksData st
  ∧ clientsData (handleRemoveRule st ruleId) = clientsData st
  ∧ workersData (handleRemoveRule st ruleId) = workersData st
  ∧ tasksData (handleRemoveRule st ruleId) = tasksData st.
Proof.
  simpl. split_and!; try done.
  - intros i r Hi. by apply lookup_app_l_Some.
  - by rewrite lookup_app_r, Nat.sub_diag.
  - rewrite length_app. simpl. lia.
  - apply sublist_filter.
  - intros r. rewrite list_elem_of_filter. tauto.
  - pose proof (filter_length_split (λ r, id r = ruleId) (rules st)). lia.
Qed.

(** Removing a rule that was just added gives the list back when no other
    rule carries its id. *)
Lemma remove_after_add (st : State) (rule : Rule) :
  Forall (λ r, id r ≠ id rule) (rules st) →
  rules (handleRemoveRule (handleAddRule st rule) (id rule)) = rules st.
Proof.
  intros Hfresh. simpl. rewrite filter_app, filter_cons, filter_nil.
  rewrite decide_False by tauto. rewrite app_nil_r.
  induction Hfresh as [|r l Hr _ IH]; [done|].
  rewrite filter_cons, decide_True by done. by rewrite IH.
Qed.

End RuleListFacts.

(** ** The visual rule builder *)

Section VisualRuleBuilderFacts.

Import VisualRuleBuilder.

Lemma createRule_cases (st : State) (now : Z) :
  (truthy (get (currentRule st) "name") = false
   ∧ createRule st now = (st, [Alert "Please provide a rule name"]))
  ∨ (truthy (get (currentRule st) "name") = true
     ∧ createRule st now =
       ({| activeTab := activeTab st; currentRule := ∅; jsonPreview := None |},
        [OnAddRule {| id := "rule_" +:+ pretty now; type := activeTab st;
                      name := get (currentRule st) "name";
                      parameters := currentRule st; isActive := true |}])).
Proof.
  unfold createRule.
  destruct (truthy (get (currentRule st) "name")); simpl; [right | left]; done.
Qed.

(** C10: [createRule] hands a rule to [onAddRule] only when the name field
    holds a truthy value (so not the empty string); without one it adds
    nothing and leaves the builder as it is.  The rule it creates is active,
    its type is the selected tab, its name is the entered one, and its
    parameters are the fields entered so far: a field set through
    [handleRuleChange] is found in them with the value entered. *)
Theorem createRule_adds_named_active_rule (st : State) (now : Z) :
  (∀ r : Rule, r ∈ added (createRule st now).2 →
     truthy (get (currentRule st) "name") = true
     ∧ get (currentRule st) "name" ≠ VStr ""
     ∧ name r = get (currentRule st) "name"
     ∧ isActive r = true
     ∧ type r = activeTab st
     ∧ parameters r = currentRule st)
  ∧ (truthy (get (currentRule st) "name") = false →
       added (createRule st now).2 = [] ∧ (createRule st now).1 = st)
  ∧ (truthy (get (currentRule st) "name") = true →
       ∃ r : Rule, added (createRule st now).2 = [r])
  ∧ (∀ (field : string) (v : value) (r : Rule),
       r ∈ added (createRule (handleRuleChange st field v) now).2 →
       parameters r !! field = Some v ∧ type r = activeTab st).
Proof.
  split_and!.
  - intros r Hr.
    destruct (createRule_cases st now) as [[Hn Heq]|[Hn Heq]];
      rewrite Heq in Hr; simpl in Hr; [by apply elem_of_nil in Hr|].
    apply list_elem_of_singleton in Hr as ->. simpl. split_and!; try done.
    intros Hempty. by rewrite Hempty in Hn.
  - intros Hn.
    destruct (createRule_cases st now) as [[_ ->]|[Hn' _]]; [done|congruence].
  - intros Hn.
    destruct (createRule_cases st now) as [[Hn' _]|[_ ->]]; [congruence|].
    by eexists.
  - intros field v r Hr.
    destruct (createRule_cases (handleRuleChange st field v) now)
      as [[Hn Heq]|[Hn Heq]]; rewrite Heq in Hr; simpl in Hr;
      [by apply elem_of_nil in Hr|].
    apply list_elem_of_singleton in Hr as ->. simpl.
    split; [apply lookup_insert_eq | done].
Qed.

Lemma createRule_witness :
  ∃ r : Rule, added (createRule Samples.named_capacity 1700000000000).2 = [r].
Proof.
  apply (createRule_adds_named_active_rule Samples.named_capacity 1700000000000).
  reflexivity.
Defined.

Example createRule_without_name :
  createRule initial 1700000000000 = (initial, [Alert "Please provide a rule name"]).
Proof. reflexivity. Qed.

End VisualRuleBuilderFacts.

(** ** The validation summary view *)

Section ValidationSummaryFacts.

Import Report ValidationSummary.

Lemma row_badge_nonneg (row_index : Z) :
  0 ≤ row_index → row_badge row_index = Some (row_index + 1).
Proof. intros H. unfold row_badge. by rewrite (proj2 (Z.leb_le _ _) H). Qed.

Lemma row_badge_None (row_index : Z) :
  row_badge row_index = None ↔ row_index < 0.
Proof.
  unfold row_badge. destruct (Z.leb_spec 0 row_index); split; intros; (done || lia).
Qed.

(** C5: for an issue whose [row_index] is an integer (0-based row, or -1 at
    dataset or rule level) the card of an error and the card of a warning
    carry the row badge [row_index + 1] when [row_index >= 0] and no row
    badge exactly when [row_index] is negative, in particular at -1; the
    view holds one such card per error and per warning of the report. *)
Theorem row_badge_one_based (e : Issue) (r : ValidationReport) :
  card_row (error_card e) = row_badge (row_index e)
  ∧ card_row (warning_card e) = row_badge (row_index e)
  ∧ (0 ≤ row_index e → card_row (error_card e) = Some (row_index e + 1)
                       ∧ card_row (warning_card e) = Some (row_index e + 1))
  ∧ (card_row (error_card e) = None ↔ row_index e < 0)
  ∧ (card_row (warning_card e) = None ↔ row_index e < 0)
  ∧ row_badge (-1) = None
  ∧ ∃ v : View, render (Some r) = Some v
      ∧ v_errors v = map error_card (errors r)
      ∧ v_warnings v = map warning_card (warnings r).
Proof.
  split_and!; try done.
  - intros H. split; by apply row_badge_nonneg.
  - apply row_badge_None.
  - apply row_badge_None.
  - by eexists.
Qed.

Lemma example_lines_take (exs : list SummaryExample) :
  example_lines exs = map example_line (take 3 exs).
Proof. unfold example_lines. by destruct exs. Qed.

End ValidationSummaryFacts.

(** ** The report of the Diagnostic Reporter *)

Section ReporterFacts.

Import Report Reporter.

Lemma summary_entry_examples (l : list Issue) (t : string) :
  (length (examples (summary_entry l t)) ≤ 3)%nat.
Proof. simpl. rewrite length_fmap, length_take. lia. Qed.

(** C6: in the report the reporter builds, every entry of the summary map
    holds at most 3 examples; the summary card of the view lists the first 3
    examples of the entry it is given and no more, however many the entry
    holds. *)
Theorem summary_examples_at_most_three
    (streams : list (list Issue)) (entry : string * SummaryEntry) :
  (∀ (t : string) (e : SummaryEntry),
     (t, e) ∈ summary (build_report streams) → (length (examples e) ≤ 3)%nat)
  ∧ ValidationSummary.sc_examples (ValidationSummary.summary_card entry)
    = map ValidationSummary.example_line (take 3 (examples entry.2))
  ∧ (length (ValidationSummary.sc_examples (ValidationSummary.summary_card entry))
     = Nat.min 3 (length (examples entry.2)))
  ∧ (length (ValidationSummary.sc_examples (ValidationSummary.summary_card entry))
     ≤ 3)%nat.
Proof.
  split_and!.
  - intros t e Hin. unfold build_report, build_summary in Hin. simpl in Hin.
    apply list_elem_of_fmap in Hin as (t' & Heq & _).
    inversion Heq; subst. apply summary_entry_examples.
  - simpl. apply example_lines_take.
  - simpl. rewrite example_lines_take, length_fmap, length_take. done.
  - simpl. rewrite example_lines_take, length_fmap, length_take. lia.
Qed.

Lemma filter_none {A : Type} (P : A → Prop) `{!∀ x, Decision (P x)} (l : list A) :
  (∀ x, x ∈ l → ¬ P x) → filter P l = [].
Proof.
  induction l as [|x l IH]; intros Hall; [done|].
  rewrite filter_cons_False by (apply Hall; left).
  apply IH. intros y Hy. apply Hall. by right.
Qed.

Lemma filter_all {A : Type} (P : A → Prop) `{!∀ x, Decision (P x)} (l : list A) :
  (∀ x, x ∈ l → P x) → filter P l = l.
Proof.
  induction l as [|x l IH]; intros Hall; [done|].
  rewrite filter_cons_True by (apply Hall; left).
  f_equal. apply IH. intros y Hy. apply Hall. by right.
Qed.

Lemma dedupe_elem_of (l : list Issue) (x : Issue) : x ∈ dedupe l → x ∈ l.
Proof.
  revert x. induction l as [|y l IH]; intros x Hx; [done|].
  simpl in Hx. apply elem_of_cons in Hx as [->|Hx]; [by left|].
  apply list_elem_of_filter in Hx as [_ Hx]. right. by apply IH.
Qed.

Lemma insert_issue_perm (x : Issue) (l : list Issue) : insert_issue x l ≡ₚ x :: l.
Proof.
  induction l as [|y l IH]; [done|].
  simpl. destruct (issue_leb x y); [done|].
  rewrite IH. apply Permutation_swap.
Qed.

Lemma sort_issues_perm (l : list Issue) : sort_issues l ≡ₚ l.
Proof.
  induction l as [|x l IH]; [done|].
  unfold sort_issues in *. simpl. by rewrite insert_issue_perm, IH.
Qed.

(** Deduplicating a concatenation: the first list is deduplicated as it
    would be alone, and of the second what duplicates nothing of the first
    is kept. *)
Lemma dedupe_app (l k : list Issue) :
  dedupe (l ++ k)
  = dedupe l ++ filter (λ y, Forall (λ x, ¬ same_issue x y) l) (dedupe k).
Proof.
  induction l as [|x l IH]; simpl.
  - symmetry. apply filter_all. intros; constructor.
  - f_equal. rewrite IH, filter_app. f_equal.
    rewrite list_filter_filter. apply list_filter_iff.
    intros y. rewrite Forall_cons. tauto.
Qed.

Lemma critical_after_sort (l : list Issue) :
  length (filter is_critical (sort_issues l)) = length (filter is_critical l).
Proof. by rewrite sort_issues_perm. Qed.

Lemma critical_count_app (l ws : list Issue) :
  Forall (λ i, issue_severity i = Warning) ws →
  length (filter is_critical (sort_issues (dedupe (l ++ ws))))
  = length (filter is_critical (sort_issues (dedupe l))).
Proof.
  intros Hws. rewrite !critical_after_sort, dedupe_app, filter_app, length_app.
  rewrite (filter_none is_critical (filter _ (dedupe ws))); [simpl; lia|].
  intros x Hx. apply list_elem_of_filter in Hx as [_ Hx].
  apply dedupe_elem_of in Hx. rewrite Forall_forall in Hws.
  unfold is_critical. rewrite (Hws x Hx). done.
Qed.

(** C4: in the report the reporter builds, [is_valid] is true if and only if
    the report holds no critical issue: its [errors] are exactly its critical
    issues, its [warnings] the others, and [is_valid] holds exactly when
    [errors] is empty, that is when [total_errors] is 0.  A further stream
    made of warnings only, however long, leaves [is_valid] as it was. *)
Theorem is_valid_iff_no_critical
    (streams : list (list Issue)) (ws : list Issue) :
  Forall (λ i, issue_severity i = Warning) ws →
  let r := build_report streams in
  (is_valid r = true ↔ errors r = [])
  ∧ (is_valid r = true ↔ total_errors r = 0%nat)
  ∧ Forall (λ i, issue_severity i = Critical) (errors r)
  ∧ Forall (λ i, issue_severity i = Warning) (warnings r)
  ∧ (is_valid r = true ↔
     ∀ i : Issue, i ∈ errors r ++ warnings r → issue_severity i = Warning)
  ∧ is_valid (build_report (streams ++ [ws])) = is_valid r.
Proof.
  intros Hws r.
  assert (Hval : is_valid r = true ↔ errors r = []).
  { simpl. rewrite Nat.eqb_eq. apply length_zero_iff_nil. }
  assert (Herr : Forall (λ i, issue_severity i = Critical) (errors r)).
  { apply Forall_forall. intros i Hi. simpl in Hi.
    by apply list_elem_of_filter in Hi as [Hi _]. }
  assert (Hwarn : Forall (λ i, issue_severity i = Warning) (warnings r)).
  { apply Forall_forall. intros i Hi. simpl in Hi.
    apply list_elem_of_filter in Hi as [Hi _]. unfold is_critical in Hi.
    by destruct (issue_severity i). }
  split_and!; try done.
  - simpl. apply Nat.eqb_eq.
  - rewrite Hval. split.
    + intros Hnil i Hi. rewrite Hnil in Hi. simpl in Hi.
      rewrite Forall_forall in Hwarn. by apply Hwarn.
    + intros Hall. destruct (errors r) as [|e es] eqn:He; [done|].
      rewrite Forall_cons in Herr. destruct Herr as [Hcrit _].
      specialize (Hall e). rewrite Hall in Hcrit; [done|]. by left.
  - unfold r. simpl. f_equal.
    rewrite concat_app. simpl. rewrite app_nil_r. by apply critical_count_app.
Qed.

Lemma is_valid_witness :
  is_valid (Reporter.build_report
              ([[Samples.duplicate_worker]]
               ++ [[Samples.saturated_phase; Samples.saturated_phase]]))
  = is_valid (Reporter.build_report [[Samples.duplicate_worker]]).
Proof.
  apply (is_valid_iff_no_critical [[Samples.duplicate_worker]]
           [Samples.saturated_phase; Samples.saturated_phase]).
  repeat constructor.
Defined.

(** One critical issue and one warning: the report is invalid; the warning
    alone leaves it valid. *)
Example failing_report_invalid :
  is_valid Samples.failing_report = false
  ∧ total_errors Samples.failing_report = 1%nat
  ∧ total_warnings Samples.failing_report = 1%nat
  ∧ is_valid (build_report [[Samples.saturated_phase]]) = true.
Proof. by vm_compute. Qed.

End ReporterFacts.

(** ** The export panel *)

Section ExportFacts.

Import ExportPanel.

Lemma props_ignore_validation (h : Home.State)
    (v : option Report.ValidationReport) :
  props_of (Home.setValidationResult v h) = props_of h.
Proof. reflexivity. Qed.

Lemma totalRecords_props (h : Home.State) :
  totalRecords (props_of h) = Home.totalRecords h.
Proof. reflexivity. Qed.

Lemma handleFullExport_requests (p : Props) (st : State) (timestamp : string)
    (now : Z) (reply : axios_outcome string) :
  export_requested (handleFullExport p st timestamp now reply).2 = true
  ∧ Post export_url (prepareExportData p timestamp)
    ∈ (handleFullExport p st timestamp now reply).2.
Proof. destruct reply; simpl; split; (done || by left). Qed.

(** C1, as the code has it: a click on the package button sends the export
    request exactly when no export is running and at least one record is
    loaded; the request carries the tables, rules and priorities of [Home];
    the validation result is not consulted: replacing it by any other
    result, or by none, changes neither the request nor the panel's state. *)
Theorem full_export_gate (h : Home.State) (st : State) (timestamp : string)
    (now : Z) (reply : axios_outcome string)
    (v : option Report.ValidationReport) :
  (export_requested (click_full_export (props_of h) st timestamp now reply).2 = true
   ↔ isExporting st = false ∧ Home.totalRecords h ≠ 0%nat)
  ∧ (export_requested (click_full_export (props_of h) st timestamp now reply).2 = true
     → Post export_url (prepareExportData (props_of h) timestamp)
       ∈ (click_full_export (props_of h) st timestamp now reply).2)
  ∧ click_full_export (props_of (Home.setValidationResult v h)) st timestamp now reply
    = click_full_export (props_of h) st timestamp now reply.
Proof.
  split_and!; [| |done].
  - unfold click_full_export, full_export_disabled.
    rewrite totalRecords_props.
    destruct (isExporting st); simpl; [split; [done | by intros [? _]]|].
    destruct (Nat.eqb_spec (Home.totalRecords h) 0) as [Hz|Hz]; simpl.
    + split; [done | by intros [_ ?]].
    + split; [done|]. intros _. apply handleFullExport_requests.
  - unfold click_full_export.
    destruct (full_export_disabled (props_of h) st); simpl; [done|].
    intros _. apply handleFullExport_requests.
Qed.

(** C1 fails as stated: with a report whose [is_valid] is false on screen,
    the click sends the export request. *)
Lemma export_despite_invalid_report :
  (Report.is_valid <$> Home.validationResult Samples.invalid_home) = Some false
  ∧ export_requested
      (click_full_export (props_of Samples.invalid_home) initial
         "2025-01-01T00:00:00.000Z" 1735689600000 (AxiosOk "PK")).2 = true.
Proof. split; by vm_compute. Qed.

End ExportFacts.

(** ** Uploads and the validation request *)

Section UploadFacts.

Import Home.

Lemma guard_false (st : State) :
  nonempty (clientsData st) || nonempty (workersData st) || nonempty (tasksData st)
  = false ↔ tables_empty st.
Proof.
  unfold tables_empty. rewrite !orb_false_iff, !nonempty_nil. tauto.
Qed.

Lemma upload_requests (st : State) (ty : string) (data : list DataRow)
    (resp : UploadResponse) (reply : fetch_outcome ValidateReply) :
  (handleDataUpload st ty data (Some resp) reply).2
  = if nonempty (clientsData st) || nonempty (workersData st)
       || nonempty (tasksData st)
    then [ValidateComprehensive (snapshot st ty data)] else [].
Proof.
  unfold handleDataUpload.
  destruct (nonempty (clientsData st) || nonempty (workersData st)
            || nonempty (tasksData st)); [|done].
  by destruct reply as [|[] ? []].
Qed.

(** The table named by [ty] is stored whatever else happens. *)
Lemma upload_stores (st : State) (ty : string) (data : list DataRow)
    (backendResponse : option UploadResponse)
    (reply : fetch_outcome ValidateReply) :
  let st' := (handleDataUpload st ty data backendResponse reply).1 in
  clientsData st' = clients_data (snapshot st ty data)
  ∧ workersData st' = workers_data (snapshot st ty data)
  ∧ tasksData st' = tasks_data (snapshot st ty data).
Proof.
  assert (Hst : let s1 := store_table ty data st in
                clientsData s1 = clients_data (snapshot st ty data)
                ∧ workersData s1 = workers_data (snapshot st ty data)
                ∧ tasksData s1 = tasks_data (snapshot st ty data)).
  { unfold store_table, snapshot. simpl.
    destruct (String.eqb_spec ty "clients") as [->|_]; [done|].
    destruct (String.eqb_spec ty "workers") as [->|_]; [done|].
    by destruct (String.eqb_spec ty "tasks") as [->|_]. }
  unfold handleDataUpload.
  destruct backendResponse as [resp|]; [|exact Hst].
  destruct (validation_preview resp);
    destruct (nonempty (clientsData st) || nonempty (workersData st)
              || nonempty (tasksData st));
    try destruct reply as [|[] ? []]; exact Hst.
Qed.

(** C2, as the code has it: an upload that comes with the back end's reply,
    made while at least one of the three tables already holds rows, sends
    exactly one comprehensive validation request, and its body holds the
    uploaded rows for the uploaded table and the current rows of the other
    two; the tables stored after the call are those of that body.  When all
    three tables are still empty, as on the very first upload, no validation
    request is sent. *)
Theorem upload_validation_request (st : State) (ty : string)
    (data : list DataRow) (resp : UploadResponse)
    (reply : fetch_outcome ValidateReply) :
  let out := handleDataUpload st ty data (Some resp) reply in
  (¬ tables_empty st → out.2 = [ValidateComprehensive (snapshot st ty data)])
  ∧ (tables_empty st → out.2 = [])
  ∧ (ty = "clients" →
       snapshot st ty data
       = {| clients_data := data; workers_data := workersData st;
            tasks_data := tasksData st |})
  ∧ (ty = "workers" →
       snapshot st ty data
       = {| clients_data := clientsData st; workers_data := data;
            tasks_data := tasksData st |})
  ∧ (ty = "tasks" →
       snapshot st ty data
       = {| clients_data := clientsData st; workers_data := workersData st;
            tasks_data := data |})
  ∧ clientsData out.1 = clients_data (snapshot st ty data)
  ∧ workersData out.1 = workers_data (snapshot st ty data)
  ∧ tasksData out.1 = tasks_data (snapshot st ty data).
Proof.
  intros out. unfold out.
  pose proof (upload_stores st ty data (Some resp) reply) as (Hc & Hw & Ht).
  split_and!; try done.
  - intros Hne. rewrite upload_requests.
    destruct (nonempty (clientsData st) || nonempty (workersData st)
              || nonempty (tasksData st)) eqn:Hg; [done|].
    by apply guard_false in Hg.
  - intros He. rewrite upload_requests.
    by rewrite (proj2 (guard_false st) He).
  - by intros ->.
  - by intros ->.
  - by intros ->.
Qed.

(** A second upload, of the workers table, once the clients are loaded. *)
Lemma upload_validation_witness :
  (handleDataUpload (setClientsData [Samples.client_row] initial) "workers"
     [Samples.worker_row] (Some Samples.upload_reply) Samples.validated).2
  = [ValidateComprehensive
       {| clients_data := [Samples.client_row];
          workers_data := [Samples.worker_row]; tasks_data := [] |}].
Proof.
  apply (upload_validation_request (setClientsData [Samples.client_row] initial)
           "workers" [Samples.worker_row] Samples.upload_reply Samples.validated).
  intros (Hc & _). discriminate Hc.
Defined.

(** C2 fails as stated: the very first upload stores the table and sends no
    validation request. *)
Lemma first_upload_not_validated :
  clientsData
    (handleDataUpload initial "clients" [Samples.client_row]
       (Some Samples.upload_reply) Samples.validated).1 = [Samples.client_row]
  ∧ (handleDataUpload initial "clients" [Samples.client_row]
       (Some Samples.upload_reply) Samples.validated).2 = [].
Proof. split; reflexivity. Qed.

(** An edit arrives through [handleDataUpdate], which passes no backend
    response: the table is stored and no request is sent. *)
Lemma handleDataUpdate_sends_nothing (st : State) (ty : string)
    (newData : list DataRow) (reply : fetch_outcome ValidateReply) :
  handleDataUpdate st ty newData reply = (store_table ty newData st, []).
Proof. reflexivity. Qed.

End UploadFacts.

(** ** The type of an added rule *)

Section RuleTypeFacts.

Import RuleBuilder RuleKind.

(** The rule built from a reply that is an object. *)
Lemma parsed_rule_object (ruleInput : string) (now : Z) (o : object) :
  parsed_rule ruleInput now (VObj o)
  = Some {| Home.id := pretty now;
            Home.description := VStr ruleInput;
            Home.type := JS.or (get o "type") (VStr "custom");
            Home.parameters := JS.or (get o "parameters") (VObj ∅) |}.
Proof. reflexivity. Qed.

(** A reply that is no object gives the type ['custom']: reading [type] of
    [null] or [undefined] throws, and a primitive or an array has none. *)
Lemma handleAddRule_no_object (ruleInput : string) (now : Z) (data : value)
    (r : Home.Rule) :
  (∀ o : object, data ≠ VObj o) →
  (handleAddRule ruleInput now (AxiosOk data)).2 = [r] →
  Home.type r = VStr "custom".
Proof.
  intros Hno. unfold handleAddRule.
  destruct (negb (str_truthy (trim ruleInput))); simpl; [done|].
  destruct data as [| | | | | |o]; simpl; try (by intros [= <-]).
  by destruct (Hno o).
Qed.

(** C3, as the code has it: an input that trims to nothing adds no rule.
    Any other input adds exactly one rule.  Its type is the [type] the
    parser's reply carries when the reply is an object whose [type] is
    truthy, and ['custom'] when that [type] is falsy or absent, when the
    reply is no object, and on the error fallback, where the rule is the
    fallback rule.  A rule added by accepting a suggestion takes the
    suggestion's [type] unchanged.  Neither path compares the type with the
    fixed kinds, and ['custom'] is none of them. *)
Theorem added_rule_type (ruleInput : string) (now : Z)
    (reply : axios_outcome value) (st : Home.State) (suggestion : object) :
  (trim ruleInput = "" → (handleAddRule ruleInput now reply).2 = [])
  ∧ (trim ruleInput ≠ "" →
       ∃ r : Home.Rule,
         (handleAddRule ruleInput now reply).2 = [r]
         ∧ (∀ o : object, reply = AxiosOk (VObj o) →
              truthy (get o "type") = true → Home.type r = get o "type")
         ∧ (∀ o : object, reply = AxiosOk (VObj o) →
              truthy (get o "type") = false → Home.type r = VStr "custom")
         ∧ (∀ data : value, reply = AxiosOk data →
              (∀ o : object, data ≠ VObj o) → Home.type r = VStr "custom")
         ∧ (reply = AxiosError →
              r = fallback_rule ruleInput now ∧ Home.type r = VStr "custom"))
  ∧ Home.rules (Home.handleRuleSuggestionAccept st suggestion now)
    = Home.rules st ++ [Home.suggestion_rule suggestion now]
  ∧ Home.type (Home.suggestion_rule suggestion now) = get suggestion "type"
  ∧ is_fixed_kind (VStr "custom") = false.
Proof.
  split_and!.
  - intros Ht. unfold handleAddRule. by rewrite Ht.
  - intros Hne.
    assert (Ht : str_truthy (trim ruleInput) = true).
    { destruct (str_truthy (trim ruleInput)) eqn:Ht; [done|].
      by apply str_truthy_false in Ht. }
    assert (Hone : ∃ r, (handleAddRule ruleInput now reply).2 = [r]).
    { unfold handleAddRule. rewrite Ht. simpl.
      destruct reply as [|data]; [by eexists|].
      destruct (parsed_rule ruleInput now data); by eexists. }
    destruct Hone as [r Hr]. exists r. split; [done|]. split_and!.
    + intros o -> Htr. unfold handleAddRule in Hr. rewrite Ht in Hr.
      simpl in Hr. injection Hr as <-. simpl. unfold JS.or. by rewrite Htr.
    + intros o -> Htr. unfold handleAddRule in Hr. rewrite Ht in Hr.
      simpl in Hr. injection Hr as <-. simpl. unfold JS.or. by rewrite Htr.
    + intros data -> Hno. by apply (handleAddRule_no_object ruleInput now data).
    + intros ->. unfold handleAddRule in Hr. rewrite Ht in Hr. simpl in Hr.
      by injection Hr as <-.
  - done.
  - done.
  - by vm_compute.
Qed.

Lemma added_rule_type_witness :
  ∃ r : Home.Rule,
    (handleAddRule "T12 and T14 should run together" 1735689600000
       (AxiosOk (VObj {[ "type" := VStr "coRun" ]}))).2 = [r]
    ∧ Home.type r = VStr "coRun".
Proof.
  destruct (added_rule_type "T12 and T14 should run together" 1735689600000
              (AxiosOk (VObj {[ "type" := VStr "coRun" ]})) Home.initial ∅)
    as (_ & Hadd & _).
  destruct Hadd as (r & Hr & Htype & _); [by vm_compute|].
  exists r. split; [exact Hr|]. exact (Htype _ eq_refl eq_refl).
Defined.

(** C3 fails as stated: when the parser cannot be reached, the rule added has
    the type ['custom'], which is none of the fixed kinds; so has the rule
    added when the reply names no type, and an accepted suggestion brings
    whatever type it names. *)
Lemma fallback_rule_not_of_enum :
  (Home.type <$> (handleAddRule "T12 and T14 should run together"
                    1735689600000 AxiosError).2) = [VStr "custom"]
  ∧ (is_fixed_kind <$> (Home.type <$>
        (handleAddRule "T12 and T14 should run together"
           1735689600000 AxiosError).2)) = [false]
  ∧ (is_fixed_kind <$> (Home.type <$>
        (handleAddRule "Balance load across all workers"
           1735689600000 (AxiosOk (VObj ∅))).2)) = [false]
  ∧ (is_fixed_kind <$> (Home.type <$>
        Home.rules (Home.handleRuleSuggestionAccept Home.initial
                      {[ "type" := VStr "load_balancing" ]} 1735689600000)))
    = [false].
Proof. split_and!; by vm_compute. Qed.

End RuleTypeFacts.

(** ** Natural-language modification *)

Section NLModifyFacts.

Import NLModify.

Lemma update_for_elem (ty ty' : string) (modified : option (list DataRow))
    (rows : list DataRow) :
  (ty', rows) ∈ update_for ty modified →
  ty' = ty ∧ modified = Some rows ∧ rows ≠ [].
Proof.
  unfold update_for. destruct modified as [l|]; [|by intros ?%elem_of_nil].
  destruct (nonempty l) eqn:Hl; [|by intros ?%elem_of_nil].
  intros Hin%list_elem_of_singleton. injection Hin as -> ->.
  split_and!; try done. by apply nonempty_true.
Qed.

Lemma updates_of_elem (data : ModifyReply) (ty : string) (rows : list DataRow) :
  (ty, rows) ∈ updates_of data →
  (∃ n : Z, total_changes data = Some n ∧ 0 < n)
  ∧ rows ≠ []
  ∧ ((ty = "clients" ∧ modified_clients data = Some rows)
     ∨ (ty = "workers" ∧ modified_workers data = Some rows)
     ∨ (ty = "tasks" ∧ modified_tasks data = Some rows)).
Proof.
  unfold updates_of. destruct (total_changes data) as [n|]; [|by intros ?%elem_of_nil].
  destruct (Z.ltb_spec 0 n) as [Hn|Hn]; [|by intros ?%elem_of_nil].
  rewrite !elem_of_app.
  intros [H|[H|H]]; apply update_for_elem in H as (-> & Hm & Hne);
    (split; [by exists n|]); (split; [done|]); tauto.
Qed.

(** C9: the handler calls [onDataUpdate] for nothing when the query is empty
    or blank, when no table holds a row, when the request fails, when the
    response is not ok, or when its body cannot be read; the tables of [Home]
    are then as they were.  Every call it does make is for an entity whose
    [modified_*] array in an ok response is present and not empty, under a
    [total_changes] above 0, and passes that array. *)
Theorem nl_modify_atomic (st : State) (query : string)
    (clientsData workersData tasksData : list DataRow)
    (reply : fetch_outcome ModifyReply) (h : Home.State) :
  let calls := (handleSubmit st query clientsData workersData tasksData reply).2 in
  (trim query = ""
   ∨ (clientsData = [] ∧ workersData = [] ∧ tasksData = [])
   ∨ (∃ m, reply = NetworkError m)
   ∨ (∃ s j, reply = Response false s j)
   ∨ (∃ s m, reply = Response true s (ParseError m))
   → calls = [] ∧ apply_updates h calls = h)
  ∧ (∀ (ty : string) (rows : list DataRow), (ty, rows) ∈ calls →
       ∃ (s : string) (data : ModifyReply) (n : Z),
         reply = Response true s (Parsed data)
         ∧ total_changes data = Some n ∧ 0 < n
         ∧ rows ≠ []
         ∧ ((ty = "clients" ∧ modified_clients data = Some rows)
            ∨ (ty = "workers" ∧ modified_workers data = Some rows)
            ∨ (ty = "tasks" ∧ modified_tasks data = Some rows)))
  ∧ (calls ≠ [] → trim query ≠ ""
       ∧ ¬ (clientsData = [] ∧ workersData = [] ∧ tasksData = [])).
Proof.
  intros calls. unfold calls, handleSubmit.
  destruct (str_truthy (trim query)) eqn:Hq; simpl.
  2: { apply str_truthy_false in Hq.
       split_and!; [done | by intros ? ? ?%elem_of_nil | done]. }
  assert (Hq' : trim query ≠ "").
  { intros Heq. apply str_truthy_false in Heq. congruence. }
  destruct (Nat.eqb (length clientsData) 0 && Nat.eqb (length workersData) 0
            && Nat.eqb (length tasksData) 0) eqn:He; simpl.
  { split_and!; [done | by intros ? ? ?%elem_of_nil | done]. }
  assert (He' : ¬ (clientsData = [] ∧ workersData = [] ∧ tasksData = [])).
  { intros (-> & -> & ->). done. }
  destruct reply as [m|[] s [m|data]]; simpl;
    try (split_and!;
         [done | by intros ? ? ?%elem_of_nil | done]).
  split_and!.
  - intros [?|[?|[[m Hm]|[(s' & j & Hj)|(s' & m & Hm)]]]]; done.
  - intros ty rows Hin. apply updates_of_elem in Hin as ((n & Hn & Hpos) & Hne & Hty).
    by exists s, data, n.
  - done.
Qed.

Lemma nl_modify_witness :
  (handleSubmit {| isProcessing := false; result := None; error := "" |}
     "Increase all workers max load by 2" [] [Samples.worker_row] []
     (Response false "Internal Server Error" (Parsed Samples.modify_reply))).2 = []
  ∧ apply_updates Samples.invalid_home
      (handleSubmit {| isProcessing := false; result := None; error := "" |}
         "Increase all workers max load by 2" [] [Samples.worker_row] []
         (Response false "Internal Server Error" (Parsed Samples.modify_reply))).2
    = Samples.invalid_home.
Proof.
  apply (nl_modify_atomic {| isProcessing := false; result := None; error := "" |}
           "Increase all workers max load by 2" [] [Samples.worker_row] []
           (Response false "Internal Server Error" (Parsed Samples.modify_reply))
           Samples.invalid_home).
  right; right; right; left. by eexists _, _.
Defined.

(** An ok reply with one changed worker: the workers table alone is handed
    to [onDataUpdate]; the empty tasks array and the absent clients array
    are skipped. *)
Example nl_modify_updates_workers :
  (handleSubmit {| isProcessing := false; result := None; error := "" |}
     "Increase all workers max load by 2" [] [Samples.worker_row] []
     (Response true "OK" (Parsed Samples.modify_reply))).2
  = [("workers", [Samples.worker_row])].
Proof. reflexivity. Qed.

End NLModifyFacts.

(** * Further properties of the components *)

(** ** Blank input *)

Section BlankFacts.

Lemma blank_trim_start_bound (n : nat) (s : string) :
  (String.length s < n)%nat → blank (trim_start s) = blank s.
Proof.
  revert s. induction n as [|n IH]; intros s Hn; [lia|].
  destruct s as [|c1 s1]; [done|]. simpl in Hn.
  cbn [trim_start blank]. destruct (is_space c1) eqn:H1; [apply IH; lia|].
  destruct s1 as [|c2 s2]; [cbn [blank]; by rewrite H1|]. simpl in Hn.
  destruct (is_space2 c1 c2) eqn:H2; [apply IH; lia|].
  destruct s2 as [|c3 s3]; [cbn [blank]; by rewrite H1, H2|]. simpl in Hn.
  destruct (is_space3 c1 c2 c3) eqn:H3.
  - rewrite IH by lia. done.
  - cbn [blank]. by rewrite H1, H2, H3.
Qed.

(** What [trim_start] leaves is blank only if the whole string was. *)
Lemma blank_trim_start (s : string) : blank (trim_start s) = blank s.
Proof. apply (blank_trim_start_bound (S (String.length s))). lia. Qed.

Lemma trim_end_empty (s : string) : trim_end s = "" ↔ blank s = true.
Proof.
  destruct s as [|c s]; [done|]. cbn [trim_end].
  destruct (blank (String c s)); split; done.
Qed.

(** [trim] leaves nothing exactly of the strings made of white space. *)
Lemma trim_empty_iff_blank (s : string) : trim s = "" ↔ blank s = true.
Proof. unfold trim. by rewrite trim_end_empty, blank_trim_start. Qed.

End BlankFacts.

(** ** The natural-language rule input *)

Section RuleBuilderFacts.

Import RuleBuilder.

Lemma handleAddRule_blank (ruleInput : string) (now : Z)
    (reply : axios_outcome value) :
  blank ruleInput = true → handleAddRule ruleInput now reply = (ruleInput, []).
Proof.
  intros Hb. unfold handleAddRule.
  by rewrite (proj2 (trim_empty_iff_blank ruleInput) Hb).
Qed.

Lemma handleAddRule_one (ruleInput : string) (now : Z)
    (reply : axios_outcome value) :
  blank ruleInput = false →
  ∃ r : Home.Rule,
    handleAddRule ruleInput now reply = ("", [r])
    ∧ Home.id r = pretty now ∧ Home.description r = VStr ruleInput.
Proof.
  intros Hb. unfold handleAddRule.
  destruct (str_truthy (trim ruleInput)) eqn:Ht; simpl.
  2: { apply str_truthy_false, trim_empty_iff_blank in Ht. congruence. }
  destruct reply as [|data]; [by eexists|].
  destruct (parsed_rule ruleInput now data) as [r|] eqn:Hp; [|by eexists].
  exists r. split; [done|]. unfold parsed_rule in Hp.
  destruct (prop data "type"); simpl in Hp; [|done].
  destruct (prop data "parameters"); simpl in Hp; [|done].
  by injection Hp as <-.
Qed.

(** X1: an input made of white space only adds no rule, sends no request
    and stays in the box.  Any other input adds exactly one rule, whatever
    the parser answers and also when it cannot be reached: the rule's
    description is the input as typed, its id is the clock reading, and the
    box is cleared.  When the parser cannot be reached the rule keeps the
    input as its [raw_query] parameter. *)
Theorem nl_rule_always_added (ruleInput : string) (now : Z)
    (reply : axios_outcome value) :
  (blank ruleInput = true →
     handleAddRule ruleInput now reply = (ruleInput, [])
     ∧ generate_query ruleInput = None
     ∧ ∀ isProcessing, add_disabled ruleInput isProcessing = true)
  ∧ (blank ruleInput = false →
       generate_query ruleInput = Some ruleInput
       ∧ add_disabled ruleInput false = false
       ∧ ∃ r : Home.Rule,
           handleAddRule ruleInput now reply = ("", [r])
           ∧ Home.id r = pretty now
           ∧ Home.description r = VStr ruleInput
           ∧ (reply = AxiosError →
                Home.parameters r = VObj {[ "raw_query" := VStr ruleInput ]})).
Proof.
  split.
  - intros Hb. split; [by apply handleAddRule_blank|].
    unfold generate_query, add_disabled.
    by rewrite (proj2 (trim_empty_iff_blank ruleInput) Hb).
  - intros Hb.
    assert (Ht : str_truthy (trim ruleInput) = true).
    { destruct (str_truthy (trim ruleInput)) eqn:Ht; [done|].
      apply str_truthy_false, trim_empty_iff_blank in Ht. congruence. }
    unfold generate_query, add_disabled. rewrite Ht. simpl.
    split_and!; try done.
    destruct (handleAddRule_one ruleInput now reply Hb) as (r & Heq & Hid & Hd).
    exists r. split_and!; try done.
    intros ->. unfold handleAddRule in Heq. rewrite Ht in Heq. simpl in Heq.
    by injection Heq as <-.
Qed.

Lemma nl_rule_always_added_witness :
  ∃ r : Home.Rule,
    handleAddRule "Balance load across all workers" 1735689600000
      (AxiosOk VNull) = ("", [r])
    ∧ Home.id r = pretty 1735689600000
    ∧ Home.description r = VStr "Balance load across all workers"
    ∧ (AxiosOk VNull = AxiosError →
         Home.parameters r
         = VObj {[ "raw_query" := VStr "Balance load across all workers" ]}).
Proof.
  apply (nl_rule_always_added "Balance load across all workers" 1735689600000
           (AxiosOk VNull)).
  reflexivity.
Defined.

End RuleBuilderFacts.

(** ** Rule ids and removal *)

Section RulesTabFacts.

Import RulesTab.

Lemma addRule_rules (st : Home.State) (ruleInput : string) (now : Z)
    (reply : axios_outcome value) :
  blank ruleInput = false →
  ∃ r : Home.Rule,
    Home.rules (addRule st ruleInput now reply) = Home.rules st ++ [r]
    ∧ Home.id r = pretty now.
Proof.
  intros Hb. unfold addRule.
  destruct (handleAddRule_one ruleInput now reply Hb) as (r & -> & Hid & _).
  by exists r.
Qed.

Lemma filter_id_all (l : list Home.Rule) (ruleId : string) :
  Forall (λ r, Home.id r ≠ ruleId) l →
  filter (λ rule, Home.id rule ≠ ruleId) l = l.
Proof.
  intros H. apply filter_all. by apply Forall_forall.
Qed.

(** X2: the id of a rule added from the text box is the printed clock
    reading.  Two rules added at the same reading share their id, and the
    remove button of either removes both; added at different readings they
    have different ids, and removing the later one, when no older rule has
    its id, gives back the list as it was before it was added. *)
Theorem rule_ids_follow_the_clock (st : Home.State) (q1 q2 : string)
    (now1 now2 : Z) (reply1 reply2 : axios_outcome value) :
  blank q1 = false → blank q2 = false →
  let st2 := addRule (addRule st q1 now1 reply1) q2 now2 reply2 in
  (now1 = now2 →
     Home.rules (Home.handleRemoveRule st2 (pretty now2))
     = Home.rules (Home.handleRemoveRule st (pretty now2)))
  ∧ (now1 ≠ now2 →
       Forall (λ r, Home.id r ≠ pretty now2) (Home.rules st) →
       Home.rules (Home.handleRemoveRule st2 (pretty now2))
       = Home.rules (addRule st q1 now1 reply1))
  ∧ length (Home.rules st2) = S (S (length (Home.rules st))).
Proof.
  intros Hb1 Hb2 st2. unfold st2.
  destruct (addRule_rules st q1 now1 reply1 Hb1) as (r1 & Hr1 & Hid1).
  destruct (addRule_rules (addRule st q1 now1 reply1) q2 now2 reply2 Hb2)
    as (r2 & Hr2 & Hid2).
  split_and!.
  - intros ->. simpl. rewrite Hr2, Hr1, !filter_app.
    rewrite (filter_cons_False _ r1) by (intros H; by apply H).
    rewrite (filter_cons_False _ r2) by (intros H; by apply H).
    by rewrite !filter_nil, !app_nil_r.
  - intros Hne Hold. simpl. rewrite Hr2, Hr1, !filter_app.
    rewrite (filter_cons_True _ r1).
    2: { rewrite Hid1. intros Heq. by apply (inj pretty) in Heq. }
    rewrite (filter_cons_False _ r2) by (intros H; by apply H).
    by rewrite !filter_nil, app_nil_r, filter_id_all.
  - rewrite Hr2, Hr1, !length_app. simpl. lia.
Qed.

Lemma rule_ids_follow_the_clock_witness :
  length (Home.rules
            (addRule (addRule Home.initial "T1 and T2 together" 1735689600000 AxiosError)
               "Balance load" 1735689600000 AxiosError)) = 2%nat
  ∧ Home.rules
      (Home.handleRemoveRule
         (addRule (addRule Home.initial "T1 and T2 together" 1735689600000 AxiosError)
            "Balance load" 1735689600000 AxiosError)
         (pretty 1735689600000))
    = Home.rules (Home.handleRemoveRule Home.initial (pretty 1735689600000)).
Proof.
  pose proof (rule_ids_follow_the_clock Home.initial "T1 and T2 together"
                "Balance load" 1735689600000 1735689600000 AxiosError AxiosError
                eq_refl eq_refl) as (Hsame & _ & Hlen).
  split; [exact Hlen | exact (Hsame eq_refl)].
Defined.

End RulesTabFacts.

(** ** The priority sliders *)

Section PriorityFacts.

Import PriorityPanel.

Lemma read_slider (p : Home.Priority) (k k' : key) (v : Z) :
  read (handleSliderChange p k v) k' = if decide (k = k') then v else read p k'.
Proof. by destruct k, k'. Qed.

(** X3: moving a slider sets its own weight and leaves the other two as
    they were; moving it again replaces the value; moving it to the value it
    has changes nothing; and two different sliders can be moved in either
    order.  In [Home] a slider changes the priorities and nothing else. *)
Theorem slider_updates_one_weight (st : Home.State) (p : Home.Priority)
    (k k' : key) (v v' : Z) :
  read (handleSliderChange p k v) k = v
  ∧ (k ≠ k' → read (handleSliderChange p k v) k' = read p k')
  ∧ handleSliderChange (handleSliderChange p k v) k v' = handleSliderChange p k v'
  ∧ handleSliderChange p k (read p k) = p
  ∧ (k ≠ k' →
       handleSliderChange (handleSliderChange p k v) k' v'
       = handleSliderChange (handleSliderChange p k' v') k v)
  ∧ Home.priorities (slide st k v) = handleSliderChange (Home.priorities st) k v
  ∧ Home.rules (slide st k v) = Home.rules st
  ∧ Home.clientsData (slide st k v) = Home.clientsData st
  ∧ Home.workersData (slide st k v) = Home.workersData st
  ∧ Home.tasksData (slide st k v) = Home.tasksData st
  ∧ Home.validationResult (slide st k v) = Home.validationResult st.
Proof.
  split_and!; try done.
  - by destruct k.
  - intros Hne. rewrite read_slider. by rewrite decide_False.
  - by destruct k.
  - by destruct k, p.
  - intros Hne. by destruct k, k'.
Qed.

(** X4: the line of "Current Configuration" for a slider is decided by the
    weight just set: the low wording below 30, the high wording above 70,
    the middle wording from 30 to 70, both ends included; the lines of the
    other sliders do not change. *)
Theorem summary_line_bands (p : Home.Priority) (k k' : key) (v : Z) :
  (v < 30 → summary_line (handleSliderChange p k v) k = low (wording_of k))
  ∧ (70 < v → summary_line (handleSliderChange p k v) k = high (wording_of k))
  ∧ (30 ≤ v ≤ 70 →
       summary_line (handleSliderChange p k v) k = middle (wording_of k))
  ∧ (k ≠ k' → summary_line (handleSliderChange p k v) k' = summary_line p k').
Proof.
  unfold summary_line. rewrite !read_slider, decide_True by done.
  split_and!.
  - intros H. by rewrite (proj2 (Z.ltb_lt _ _) H).
  - intros H. rewrite (proj2 (Z.ltb_ge _ _)) by lia.
    by rewrite (proj2 (Z.ltb_lt _ _) H).
  - intros [H1 H2]. by rewrite !(proj2 (Z.ltb_ge _ _)) by lia.
  - intros Hne. by rewrite decide_False.
Qed.

Lemma summary_line_bands_witness :
  summary_line (handleSliderChange (Home.priorities Home.initial) Fairness 70)
    Fairness = "Balanced approach".
Proof.
  apply (summary_line_bands (Home.priorities Home.initial) Fairness LoadBalance 70).
  lia.
Defined.

End PriorityFacts.

(** ** CSV export and the preview *)

Section CsvFacts.

Import ExportPanel.

(** X5: a click on a CSV button does nothing while an export runs or while
    its table (for the combined file: all three) holds no row.  Otherwise it
    posts to the address of its type the same body as the full export, with
    all three tables, the rules and the priorities, whichever table the
    button is for.  A success downloads one file and lists it alone as
    exported; a failure downloads nothing and leaves the list of exported
    files as it was.  Either way no export is running afterwards. *)
Theorem csv_export_click (p : Props) (st : State) (t : csv_type)
    (timestamp fileStamp blob : string) (reply : axios_outcome string) :
  let out := click_csv_export p st t timestamp fileStamp reply in
  (isExporting st = true ∨ csv_records p t = 0%nat → out = (st, []))
  ∧ (isExporting st = false ∧ csv_records p t ≠ 0%nat →
       head out.2 = Some (Post (csv_url t) (prepareExportData p timestamp))
       ∧ prepareExportData p timestamp
         = {| export_clients := clients_data p; export_workers := workers_data p;
              export_tasks := tasks_data p; export_rules := rules p;
              export_priorities := priorities p; export_timestamp := timestamp |}
       ∧ isExporting out.1 = false
       ∧ (reply = AxiosOk blob →
            tail out.2 = [Download blob (csv_filename t fileStamp) "text/csv"]
            ∧ exportedFiles out.1 = [csv_filename t fileStamp])
       ∧ (reply = AxiosError →
            tail out.2 = [] ∧ exportedFiles out.1 = exportedFiles st)).
Proof.
  intros out. unfold out, click_csv_export, csv_disabled. split.
  - intros [-> | ->]; [done|]. by rewrite orb_true_r.
  - intros [-> Hn]. apply Nat.eqb_neq in Hn. rewrite Hn. simpl.
    destruct reply as [|b]; simpl; split_and!; try done.
    intros [= ->]. done.
Qed.

Lemma csv_export_click_witness :
  click_csv_export (props_of Samples.invalid_home) initial CsvTasks
    "2025-01-01T00:00:00.000Z" "2025-01-01T00:00:00.001Z" AxiosError
  = (initial, []).
Proof.
  apply (csv_export_click (props_of Samples.invalid_home) initial CsvTasks
           "2025-01-01T00:00:00.000Z" "2025-01-01T00:00:00.001Z" "" AxiosError).
  right. reflexivity.
Defined.

Example csv_file_name :
  csv_filename CsvWorkers "2025-01-01T00:00:00.001Z" = "workers_data_2025-01-01.csv"
  ∧ csv_url CsvAll = "http://localhost:8000/export/csv/all"
  ∧ capitalize (csv_name CsvClients) = "Clients".
Proof. split_and!; reflexivity. Qed.

(** X6: the preview shows of each table its first rows, three at most and
    all of them when the table has no more than three; its counts are the
    sizes of the whole tables and add up to the number of records the panel
    reports; and it lists every rule, in order, by description and type. *)
Theorem preview_samples (p : Props) :
  let pv := handlePreview p in
  sampleClientsData pv `prefix_of` clients_data p
  ∧ sampleWorkersData pv `prefix_of` workers_data p
  ∧ sampleTasksData pv `prefix_of` tasks_data p
  ∧ length (sampleClientsData pv) = Nat.min 3 (length (clients_data p))
  ∧ length (sampleWorkersData pv) = Nat.min 3 (length (workers_data p))
  ∧ length (sampleTasksData pv) = Nat.min 3 (length (tasks_data p))
  ∧ ((length (clients_data p) ≤ 3)%nat → sampleClientsData pv = clients_data p)
  ∧ (totalClients (preview_summary pv) + totalWorkers (preview_summary pv)
     + totalTasks (preview_summary pv) = totalRecords p)%nat
  ∧ totalRules (preview_summary pv) = length (preview_rules pv)
  ∧ (∀ (i : nat) (rule : Home.Rule), rules p !! i = Some rule →
       preview_rules pv !! i = Some (Home.description rule, Home.type rule)).
Proof.
  cbv zeta. unfold handlePreview. cbn [sampleClientsData sampleWorkersData
    sampleTasksData preview_summary preview_rules totalClients totalWorkers
    totalTasks totalRules].
  split_and!; try done.
  1-3: apply prefix_take.
  1-3: apply length_take.
  - intros H. by apply take_ge.
  - by rewrite length_fmap.
  - intros i rule Hi. by rewrite list_lookup_fmap, Hi.
Qed.

End CsvFacts.

(** ** The report kept after an upload *)

Section UploadReportFacts.

Import Home.

Lemma upload_result (st : State) (ty : string) (data : list DataRow)
    (resp : UploadResponse) (reply : fetch_outcome ValidateReply) :
  validationResult (handleDataUpload st ty data (Some resp) reply).1
  = match reply with
    | Response true _ (Parsed vd) =>
        if nonempty (clientsData st) || nonempty (workersData st)
           || nonempty (tasksData st)
        then validation_result vd else after_preview st resp
    | _ => after_preview st resp
    end.
Proof.
  unfold handleDataUpload, after_preview, store_table.
  destruct (nonempty (clientsData st) || nonempty (workersData st)
            || nonempty (tasksData st));
    destruct (validation_preview resp);
    destruct (String.eqb ty "clients"), (String.eqb ty "workers"),
      (String.eqb ty "tasks");
    by destruct reply as [|[] ? []].
Qed.

(** An upload with a reply keeps the reply as the insights and leaves the
    rules, the priorities and the open tab alone. *)
Lemma upload_frame (st : State) (ty : string) (data : list DataRow)
    (resp : UploadResponse) (reply : fetch_outcome ValidateReply) :
  aiInsights (handleDataUpload st ty data (Some resp) reply).1 = Some resp
  ∧ rules (handleDataUpload st ty data (Some resp) reply).1 = rules st
  ∧ priorities (handleDataUpload st ty data (Some resp) reply).1 = priorities st
  ∧ activeTab (handleDataUpload st ty data (Some resp) reply).1 = activeTab st.
Proof.
  unfold handleDataUpload, store_table.
  destruct (nonempty (clientsData st) || nonempty (workersData st)
            || nonempty (tasksData st));
    destruct (validation_preview resp);
    destruct (String.eqb ty "clients"), (String.eqb ty "workers"),
      (String.eqb ty "tasks");
    by destruct reply as [|[] ? []].
Qed.

(** X7: after an upload the report on screen is the one of the validation
    reply when the request was sent and answered ok with a readable body;
    such a reply without a [validation_result] leaves no report, and the
    badge reads "Not Checked".  When the request fails, is answered not ok
    or unreadably, or is not sent, the report is the preview that came with
    the upload, or the earlier report when there was no preview.  The
    upload response is kept as the insights; rules, priorities and the open
    tab are not touched; and a type that names none of the three tables
    stores no rows. *)
Theorem upload_report_precedence (st : State) (ty : string)
    (data : list DataRow) (resp : UploadResponse)
    (reply : fetch_outcome ValidateReply) :
  let st' := (handleDataUpload st ty data (Some resp) reply).1 in
  (∀ (s : string) (vd : ValidateReply),
     reply = Response true s (Parsed vd) → ¬ tables_empty st →
     validationResult st' = validation_result vd
     ∧ (validation_result vd = None → status_badge st' = "⚪ Not Checked"))
  ∧ ((∀ s vd, reply ≠ Response true s (Parsed vd)) ∨ tables_empty st →
       validationResult st' = after_preview st resp)
  ∧ aiInsights st' = Some resp
  ∧ rules st' = rules st
  ∧ priorities st' = priorities st
  ∧ activeTab st' = activeTab st
  ∧ (ty ≠ "clients" → ty ≠ "workers" → ty ≠ "tasks" →
       clientsData st' = clientsData st ∧ workersData st' = workersData st
       ∧ tasksData st' = tasksData st).
Proof.
  intros st'. unfold st'.
  destruct (upload_frame st ty data resp reply) as (Ha & Hr & Hp & Ht).
  split_and!; try done.
  - intros s vd -> Hne. rewrite upload_result.
    destruct (nonempty (clientsData st) || nonempty (workersData st)
              || nonempty (tasksData st)) eqn:Hg.
    + split; [done|]. intros Hnone. unfold status_badge.
      rewrite upload_result, Hg. by rewrite Hnone.
    + by apply guard_false in Hg.
  - intros [Hreply|He]; rewrite upload_result.
    + destruct reply as [|[] s [|vd]]; try done. by destruct (Hreply s vd).
    + rewrite (proj2 (guard_false st) He). by destruct reply as [|[] ? []].
  - intros Hc Hw Ht'.
    pose proof (upload_stores st ty data (Some resp) reply) as (H1 & H2 & H3).
    rewrite H1, H2, H3. unfold snapshot. simpl.
    apply String.eqb_neq in Hc, Hw, Ht'. by rewrite Hc, Hw, Ht'.
Qed.

Lemma upload_report_precedence_witness :
  validationResult
    (handleDataUpload Samples.invalid_home "workers" [Samples.worker_row]
       (Some Samples.upload_reply) (NetworkError "Failed to fetch")).1
  = after_preview Samples.invalid_home Samples.upload_reply.
Proof.
  apply (upload_report_precedence Samples.invalid_home "workers"
           [Samples.worker_row] Samples.upload_reply
           (NetworkError "Failed to fetch")).
  left. intros s vd. discriminate.
Defined.

End UploadReportFacts.

(** ** Editing in the grid *)

Section GridFacts.

Import DataGrid DataTab.

Lemma rows_lookup (data : list DataRow) (i : nat) :
  rows data !! i = grid_row i <$> data !! i.
Proof. unfold rows. apply list_lookup_imap. Qed.

Lemma rows_ids_falsy (data : list DataRow) (k : nat) :
  Forall (λ row : DataRow, truthy (get row "id") = false) data →
  (λ row : DataRow, get row "id") <$> imap (λ i, grid_row (k + i)) data
  = (λ i : nat, VNum (Z.of_nat i)) <$> seq k (length data).
Proof.
  intros H. revert k. induction H as [|row data Hrow _ IH]; intros k; [done|].
  simpl. f_equal.
  - unfold grid_row, get, JS.or. rewrite lookup_insert_eq. simpl.
    fold (get row "id"). rewrite Hrow. by rewrite Nat.add_0_r.
  - etrans; [|exact (IH (S k))]. f_equal. apply imap_ext. intros i x _. simpl.
    f_equal. lia.
Qed.

(** X8: the rows handed to the grid are as many as the rows of the table;
    each keeps its fields other than [id], keeps its own [id] when that is
    truthy, and otherwise gets its position as [id].  When no row has a
    truthy [id] of its own the ids are 0, 1, 2, ... and so all different. *)
Theorem grid_row_ids (data : list DataRow) :
  length (rows data) = length data
  ∧ (∀ (i : nat) (row : DataRow), data !! i = Some row →
       ∃ r : DataRow, rows data !! i = Some r
         ∧ (∀ k : string, k ≠ "id" → r !! k = row !! k)
         ∧ (truthy (get row "id") = true → get r "id" = get row "id")
         ∧ (truthy (get row "id") = false → get r "id" = VNum (Z.of_nat i)))
  ∧ (Forall (λ row : DataRow, truthy (get row "id") = false) data →
       ((λ row : DataRow, get row "id") <$> rows data)
       = (λ i : nat, VNum (Z.of_nat i)) <$> seq 0 (length data)
       ∧ NoDup ((λ row : DataRow, get row "id") <$> rows data)).
Proof.
  split_and!.
  - unfold rows. apply length_imap.
  - intros i row Hi. exists (grid_row i row). rewrite rows_lookup, Hi.
    split_and!; [done| | |].
    + intros k Hk. unfold grid_row. by rewrite lookup_insert_ne.
    + intros Ht. unfold grid_row, get at 1, JS.or.
      by rewrite lookup_insert_eq, Ht.
    + intros Ht. unfold grid_row, get at 1, JS.or.
      by rewrite lookup_insert_eq, Ht.
  - intros H.
    assert (Hids : ((λ row : DataRow, get row "id") <$> rows data)
                   = (λ i : nat, VNum (Z.of_nat i)) <$> seq 0 (length data)).
    { unfold rows. by rewrite <- (rows_ids_falsy data 0 H). }
    split; [done|]. rewrite Hids. apply NoDup_fmap_2; [|apply NoDup_seq].
    intros x y [= Hxy]. lia.
Qed.

Lemma grid_row_ids_witness :
  ((λ row : DataRow, get row "id") <$> rows [Samples.client_row; Samples.worker_row])
  = [VNum 0; VNum 1].
Proof.
  apply (grid_row_ids [Samples.client_row; Samples.worker_row]).
  repeat constructor.
Defined.

(** X9: an edit made in a grid replaces that table by the edited rows
    without their [id] fields and changes no other table, nor the rules; the
    validation report stays the one computed before the edit.  Handing back
    the rows as the grid received them changes nothing when no row of the
    table has an [id] field of its own. *)
Theorem grid_edit_keeps_report (st : Home.State) (t : table)
    (newRows : list DataRow) :
  let st' := onRowsChange st t newRows in
  table_rows st' t = map (delete "id") newRows
  ∧ Forall (λ row : DataRow, row !! "id" = None) (table_rows st' t)
  ∧ (∀ t' : table, t' ≠ t → table_rows st' t' = table_rows st t')
  ∧ Home.validationResult st' = Home.validationResult st
  ∧ Home.status_badge st' = Home.status_badge st
  ∧ Home.rules st' = Home.rules st
  ∧ (Forall (λ row : DataRow, row !! "id" = None) (table_rows st t) →
       table_rows (onRowsChange st t (rows (table_rows st t))) t
       = table_rows st t).
Proof.
  intros st'. unfold st', onRowsChange.
  assert (Hrows : ∀ d, table_rows (onDataUpdate st t d) t = d) by (by destruct t).
  split_and!.
  - by rewrite Hrows.
  - rewrite Hrows. apply handleRowsChange_no_id.
  - intros t' Hne. by destruct t, t'.
  - by destruct t.
  - by destruct t.
  - by destruct t.
  - intros Hno. rewrite Hrows, handleRowsChange_rows.
    induction Hno as [|row data Hrow _ IH]; simpl; [done|].
    by rewrite IH, delete_id.
Qed.

Lemma grid_edit_keeps_report_witness :
  table_rows
    (onRowsChange Samples.invalid_home Clients
       (rows (table_rows Samples.invalid_home Clients))) Clients
  = table_rows Samples.invalid_home Clients.
Proof.
  apply (grid_edit_keeps_report Samples.invalid_home Clients []).
  repeat constructor.
Defined.

End GridFacts.

(** ** What a natural-language modification changes *)

Section NLModifyTables.

Import NLModify.

Lemma replaced_nonempty (old : list DataRow) (modified : option (list DataRow)) :
  old ≠ [] → replaced old modified ≠ [].
Proof.
  intros Hold. unfold replaced. destruct modified as [rows|]; [|done].
  destruct (nonempty rows) eqn:Hr; [|done]. by apply nonempty_true.
Qed.

Lemma apply_updates_tables (h : Home.State) (data : ModifyReply) (n : Z) :
  total_changes data = Some n → 0 < n →
  Home.clientsData (apply_updates h (updates_of data))
  = replaced (Home.clientsData h) (modified_clients data)
  ∧ Home.workersData (apply_updates h (updates_of data))
    = replaced (Home.workersData h) (modified_workers data)
  ∧ Home.tasksData (apply_updates h (updates_of data))
    = replaced (Home.tasksData h) (modified_tasks data).
Proof.
  intros Hn Hpos. unfold updates_of. rewrite Hn.
  rewrite (proj2 (Z.ltb_lt 0 n) Hpos).
  unfold update_for, replaced, apply_updates.
  destruct (modified_clients data) as [[|c cs]|],
    (modified_workers data) as [[|w ws]|],
    (modified_tasks data) as [[|t ts]|]; done.
Qed.

Lemma apply_updates_frame (h : Home.State) (calls : list update_call) :
  Home.rules (apply_updates h calls) = Home.rules h
  ∧ Home.priorities (apply_updates h calls) = Home.priorities h
  ∧ Home.validationResult (apply_updates h calls) = Home.validationResult h.
Proof.
  unfold apply_updates. revert h.
  induction calls as [|[ty rows] calls IH]; intros h; [done|].
  simpl. destruct (IH (Home.store_table ty rows h)) as (-> & -> & ->).
  unfold Home.store_table.
  by destruct (String.eqb ty "clients"), (String.eqb ty "workers"),
    (String.eqb ty "tasks").
Qed.

(** X10: when the reply reports changes, each table is replaced by its
    [modified_*] array if that array is present and holds a row, and is kept
    as it was otherwise; so a table that held rows still holds rows, and a
    modification never empties the data.  When the reply reports no change
    the three tables are kept.  Rules, priorities and the validation report
    stay as they were in every case. *)
Theorem nl_modify_tables (h : Home.State) (data : ModifyReply) :
  let h' := apply_updates h (updates_of data) in
  (∀ n : Z, total_changes data = Some n → 0 < n →
     Home.clientsData h' = replaced (Home.clientsData h) (modified_clients data)
     ∧ Home.workersData h' = replaced (Home.workersData h) (modified_workers data)
     ∧ Home.tasksData h' = replaced (Home.tasksData h) (modified_tasks data))
  ∧ (total_changes data = None ∨ (∃ n : Z, total_changes data = Some n ∧ n ≤ 0) →
       h' = h)
  ∧ (Home.clientsData h ≠ [] → Home.clientsData h' ≠ [])
  ∧ (Home.workersData h ≠ [] → Home.workersData h' ≠ [])
  ∧ (Home.tasksData h ≠ [] → Home.tasksData h' ≠ [])
  ∧ Home.rules h' = Home.rules h
  ∧ Home.priorities h' = Home.priorities h
  ∧ Home.validationResult h' = Home.validationResult h.
Proof.
  intros h'. unfold h'.
  assert (Hkeep : total_changes data = None
                  ∨ (∃ n : Z, total_changes data = Some n ∧ n ≤ 0) →
                  updates_of data = []).
  { unfold updates_of. intros [->|(n & -> & Hn)]; [done|].
    by rewrite (proj2 (Z.ltb_ge 0 n) Hn). }
  assert (Hcases : (∃ n : Z, total_changes data = Some n ∧ 0 < n)
                   ∨ updates_of data = []).
  { destruct (total_changes data) as [n|] eqn:Hn; [|right; apply Hkeep; by left].
    destruct (Z.lt_ge_cases 0 n); [left; by exists n|].
    right. apply Hkeep. right. by exists n. }
  destruct (apply_updates_frame h (updates_of data)) as (Hr & Hp & Hv).
  split_and!; try done.
  - intros n Hn Hpos. by apply (apply_updates_tables h data n).
  - intros H. by rewrite (Hkeep H).
  - intros Hne. destruct Hcases as [(n & Hn & Hpos)| ->]; [|done].
    destruct (apply_updates_tables h data n Hn Hpos) as (-> & _ & _).
    by apply replaced_nonempty.
  - intros Hne. destruct Hcases as [(n & Hn & Hpos)| ->]; [|done].
    destruct (apply_updates_tables h data n Hn Hpos) as (_ & -> & _).
    by apply replaced_nonempty.
  - intros Hne. destruct Hcases as [(n & Hn & Hpos)| ->]; [|done].
    destruct (apply_updates_tables h data n Hn Hpos) as (_ & _ & ->).
    by apply replaced_nonempty.
Qed.

Lemma nl_modify_tables_witness :
  Home.clientsData (apply_updates Samples.invalid_home (updates_of Samples.modify_reply))
  = [Samples.client_row]
  ∧ Home.workersData
      (apply_updates Samples.invalid_home (updates_of Samples.modify_reply))
    = [Samples.worker_row]
  ∧ Home.tasksData
      (apply_updates Samples.invalid_home (updates_of Samples.modify_reply))
    = [].
Proof.
  pose proof (nl_modify_tables Samples.invalid_home Samples.modify_reply)
    as (H & _).
  exact (H 1 eq_refl eq_refl).
Defined.

(** X11: a submission stopped by one of its two checks (blank query, no
    data) sets an error message and leaves the earlier result and the
    processing flag as they were.  A submission that passes them ends with
    the processing flag off and shows a result exactly when the response was
    ok and readable; whenever it hands rows to [onDataUpdate] a result is
    shown and the error message is empty. *)
Theorem nl_modify_state (st : State) (query : string)
    (clientsData workersData tasksData : list DataRow)
    (reply : fetch_outcome ModifyReply) :
  let out := handleSubmit st query clientsData workersData tasksData reply in
  (blank query = true ∨ (clientsData = [] ∧ workersData = [] ∧ tasksData = []) →
     result out.1 = result st ∧ isProcessing out.1 = isProcessing st
     ∧ error out.1 ≠ "" ∧ out.2 = [])
  ∧ (blank query = false →
     ¬ (clientsData = [] ∧ workersData = [] ∧ tasksData = []) →
     isProcessing out.1 = false
     ∧ (∀ data : ModifyReply,
          result out.1 = Some data ↔ ∃ s : string, reply = Response true s (Parsed data)))
  ∧ (out.2 ≠ [] → is_Some (result out.1) ∧ error out.1 = "").
Proof.
  intros out. unfold out, handleSubmit.
  destruct (str_truthy (trim query)) eqn:Hq; simpl.
  2: { apply str_truthy_false, trim_empty_iff_blank in Hq.
       split_and!; [done | by rewrite Hq | done]. }
  assert (Hb : blank query = false).
  { destruct (blank query) eqn:Hb; [|done].
    apply trim_empty_iff_blank, str_truthy_false in Hb. congruence. }
  destruct (Nat.eqb (length clientsData) 0 && Nat.eqb (length workersData) 0
            && Nat.eqb (length tasksData) 0) eqn:He; simpl.
  { apply andb_true_iff in He as [[Hc Hw]%andb_true_iff Ht].
    apply Nat.eqb_eq, length_zero_iff_nil in Hc, Hw, Ht.
    split_and!; [done | by intros _ [] | done]. }
  assert (He' : ¬ (clientsData = [] ∧ workersData = [] ∧ tasksData = [])).
  { intros (-> & -> & ->). done. }
  split_and!.
  - intros [Hq'|Hd]; [congruence | done].
  - intros _ _. split; [by destruct reply as [m|[] s [m|data]]|].
    intros d. destruct reply as [m|[] s [m|data]]; simpl; split;
      try (intros Hd; discriminate Hd);
      try (intros (s' & Hs); discriminate Hs).
    all: try (intros [= ->]; by exists s).
    all: try (intros (s' & Hs); by injection Hs as _ ->).
  - by destruct reply as [m|[] s [m|data]].
Qed.

Lemma nl_modify_state_witness :
  isProcessing
    (handleSubmit {| isProcessing := true; result := None; error := "" |} "  "
       [Samples.client_row] [] [] (NetworkError "Failed to fetch")).1 = true
  ∧ error
      (handleSubmit {| isProcessing := true; result := None; error := "" |} "  "
         [Samples.client_row] [] [] (NetworkError "Failed to fetch")).1 ≠ "".
Proof.
  pose proof (nl_modify_state {| isProcessing := true; result := None; error := "" |}
                "  " [Samples.client_row] [] [] (NetworkError "Failed to fetch"))
    as (H & _).
  destruct H as (_ & Hp & He & _); [by left|]. split; [exact Hp | exact He].
Defined.

End NLModifyTables.

(** ** The visual builder across events *)

Section VisualBuilderRuns.

Import VisualRuleBuilder.

Lemma get_empty (k : string) : get ∅ k = VUndef.
Proof. unfold get. by rewrite lookup_empty. Qed.

Lemma createRule_state (st : State) (now : Z) :
  (createRule st now).1 = st ∨ (createRule st now).1 = resetRule st.
Proof. destruct (createRule_cases st now) as [[_ ->]|[_ ->]]; [by left|by right]. Qed.

Lemma step_preview_ok (st : State) (e : event) :
  preview_ok st → preview_ok (step st e).
Proof.
  intros Hok. destruct e as [tab|field v| |now]; simpl; try done.
  - unfold preview_ok. simpl. split_and!; try done. apply insert_non_empty.
  - by destruct (createRule_state st now) as [-> | ->].
Qed.

Lemma foldl_preview_ok (es : list event) (st : State) :
  preview_ok st → preview_ok (foldl step st es).
Proof.
  revert st. induction es as [|e es IH]; intros st Hok; [done|].
  simpl. by apply IH, step_preview_ok.
Qed.

Lemma run_preview_ok (es : list event) : preview_ok (run es).
Proof. by apply foldl_preview_ok. Qed.

Lemma preview_ok_none (st : State) :
  preview_ok st → (jsonPreview st = None ↔ currentRule st = ∅).
Proof.
  unfold preview_ok. destruct (jsonPreview st) as [p|]; [|done].
  intros (_ & _ & _ & _ & _ & Hne). split; [done|]. intros He. by destruct Hne.
Qed.

(** X12: whatever the user did in the builder since it opened (tabs
    selected, fields changed, resets, rules created), there is no preview
    exactly when the form is empty, and otherwise the object the preview
    text was serialised from holds the selected tab, the fields of the form
    and the defaults computed from them.  So when Add Rule creates a rule, a
    preview is there, and the object it was serialised from has that rule's
    type, name and parameters. *)
Theorem preview_shows_created_rule (es : list event) (now : Z) :
  preview_ok (run es)
  ∧ (jsonPreview (run es) = None ↔ currentRule (run es) = ∅)
  ∧ (∀ p : Preview, jsonPreview (run es) = Some p →
       preview_type p = activeTab (run es)
       ∧ preview_parameters p = currentRule (run es)
       ∧ preview_name p
         = JS.or (get (currentRule (run es)) "name")
             (VStr (activeTab (run es) +:+ "_rule"))
       ∧ preview_enforcement p
         = JS.or (get (currentRule (run es)) "enforcement") (VStr "strict")
       ∧ preview_priority p
         = JS.or (get (currentRule (run es)) "priority") (VStr "medium"))
  ∧ ∀ r : Rule, r ∈ added (createRule (run es) now).2 →
      ∃ p : Preview, jsonPreview (run es) = Some p
        ∧ preview_type p = type r
        ∧ preview_name p = name r
        ∧ preview_parameters p = parameters r.
Proof.
  pose proof (run_preview_ok es) as Hok. split_and!; [done| | |].
  - by apply preview_ok_none.
  - intros p Hp. unfold preview_ok in Hok. rewrite Hp in Hok.
    destruct Hok as (? & ? & ? & ? & ? & _). done.
  - intros r Hr.
    destruct (createRule_cases (run es) now) as [[Hn Heq]|[Hn Heq]];
      rewrite Heq in Hr; simpl in Hr; [by apply elem_of_nil in Hr|].
    apply list_elem_of_singleton in Hr as ->. simpl.
    unfold preview_ok in Hok. destruct (jsonPreview (run es)) as [p|].
    + destruct Hok as (Ht & Hp & Hname & _). exists p. split_and!; try done.
      rewrite Hname. unfold JS.or. by rewrite Hn.
    + rewrite Hok, get_empty in Hn. done.
Qed.

Lemma step_tab_listed (st : State) (e : event) :
  selects_listed_tab e → activeTab st ∈ ruleTypes → activeTab (step st e) ∈ ruleTypes.
Proof.
  intros He Hst. destruct e as [tab|field v| |now]; simpl; try done.
  by destruct (createRule_state st now) as [-> | ->].
Qed.

Lemma run_tab_listed (es : list event) :
  Forall selects_listed_tab es → activeTab (run es) ∈ ruleTypes.
Proof.
  unfold run. assert (Hinit : activeTab initial ∈ ruleTypes) by (by left).
  revert Hinit. generalize initial.
  induction es as [|e es IH]; intros st Hst Hes; [done|].
  apply Forall_cons in Hes as [He Hes]. simpl.
  apply IH; [|done]. by apply step_tab_listed.
Qed.

(** X13: the tabs offered are the six of [ruleTypes], so the type of every
    rule the builder creates is one of them; the rule is active. *)
Theorem created_rule_type_is_a_tab (es : list event) (now : Z) (r : Rule) :
  Forall selects_listed_tab es →
  r ∈ added (createRule (run es) now).2 →
  type r ∈ ruleTypes ∧ type r = activeTab (run es) ∧ isActive r = true.
Proof.
  intros Hes Hr. pose proof (run_tab_listed es Hes) as Htab.
  destruct (createRule_cases (run es) now) as [[Hn Heq]|[Hn Heq]];
    rewrite Heq in Hr; simpl in Hr; [by apply elem_of_nil in Hr|].
  by apply list_elem_of_singleton in Hr as ->.
Qed.

Lemma created_rule_type_is_a_tab_witness :
  "timing" ∈ ruleTypes
  ∧ "timing" = activeTab (run [SelectTab "timing"; Change "name" (VStr "Night shift")])
  ∧ true = true.
Proof.
  apply (created_rule_type_is_a_tab
           [SelectTab "timing"; Change "name" (VStr "Night shift")] 1735689600000
           {| id := "rule_1735689600000"; type := "timing";
              name := VStr "Night shift";
              parameters := {[ "name" := VStr "Night shift" ]};
              isActive := true |}).
  - repeat constructor.
  - vm_compute. by left.
Defined.

(** X14: the Add Rule button is disabled exactly in the states in which
    [createRule] would add nothing.  Right after a tab is selected, after
    Reset, and after a rule was created, the form is empty: the button is
    disabled and [createRule] adds nothing, so a second click on Add Rule
    cannot add the rule twice. *)
Theorem add_button_agrees (st : State) (tab : string) (now now' : Z) :
  (add_disabled st = true ↔ added (createRule st now).2 = [])
  ∧ add_disabled (selectTab st tab) = true
  ∧ add_disabled (resetRule st) = true
  ∧ added (createRule (selectTab st tab) now).2 = []
  ∧ added (createRule (resetRule st) now).2 = []
  ∧ added (createRule (createRule st now).1 now').2 = []
  ∧ (added (createRule st now).2 ≠ [] → add_disabled (createRule st now).1 = true).
Proof.
  assert (Hagree : ∀ s n, add_disabled s = true ↔ added (createRule s n).2 = []).
  { intros s n. unfold add_disabled.
    destruct (createRule_cases s n) as [[Hn ->]|[Hn ->]]; rewrite Hn; simpl;
      split; done. }
  assert (Hreset : ∀ s, add_disabled (resetRule s) = true).
  { intros s. unfold add_disabled. simpl. by rewrite get_empty. }
  split_and!.
  - apply Hagree.
  - apply (Hreset (selectTab st tab)).
  - apply Hreset.
  - apply Hagree, (Hreset (selectTab st tab)).
  - apply Hagree, Hreset.
  - destruct (createRule_cases st now) as [[Hn ->]|[Hn ->]]; simpl.
    + apply Hagree. unfold add_disabled. by rewrite Hn.
    + apply Hagree, (Hreset st).
  - intros Hadd. destruct (createRule_cases st now) as [[Hn Heq]|[Hn Heq]];
      rewrite Heq in *; simpl in *; [done|]. apply (Hreset st).
Qed.

End VisualBuilderRuns.

(** ** The task and worker checkboxes *)

Section ToggleFacts.

Import VisualRuleBuilder.

Lemma get_handleRuleChange (st : State) (field field' : string) (v : value) :
  get (currentRule (handleRuleChange st field v)) field'
  = if decide (field = field') then v else get (currentRule st) field'.
Proof.
  unfold get. simpl. case_decide as H.
  - subst. by rewrite lookup_insert_eq.
  - by rewrite lookup_insert_ne.
Qed.

Lemma existsb_is_str_app (item item' : string) (l : list value) :
  existsb (is_str item') (l ++ [VStr item])
  = existsb (is_str item') l || String.eqb item item'.
Proof. rewrite existsb_app. simpl. by rewrite orb_false_r. Qed.

Lemma existsb_filter_other (item item' : string) (l : list value) :
  item' ≠ item →
  existsb (is_str item') (List.filter (λ t, negb (is_str item t)) l)
  = existsb (is_str item') l.
Proof.
  intros Hne. induction l as [|t l IH]; [done|]. simpl.
  destruct (is_str item t) eqn:Ht; simpl; rewrite IH; [|done].
  destruct t; simpl in *; try done.
  apply String.eqb_eq in Ht as ->.
  by rewrite (proj2 (String.eqb_neq _ _)) by done.
Qed.

Lemma existsb_filter_self (item : string) (l : list value) :
  existsb (is_str item) (List.filter (λ t, negb (is_str item t)) l) = false.
Proof.
  induction l as [|t l IH]; [done|]. simpl.
  destruct (is_str item t) eqn:Ht; simpl; [done|]. by rewrite Ht.
Qed.

Lemma filter_absent (item : string) (l : list value) :
  existsb (is_str item) l = false →
  List.filter (λ t, negb (is_str item t)) l = l.
Proof.
  induction l as [|t l IH]; [done|]. simpl.
  intros [Ht Hl]%orb_false_iff. rewrite Ht. simpl. by rewrite IH.
Qed.

(** X15: on a field that is empty or holds an array, ticking a box appends
    the item and the box then shows as ticked; unticking removes every
    occurrence of the item and the box shows as unticked; neither changes
    whether any other item is ticked, nor any other field of the form.
    Ticking an item that was not in the list and unticking it again gives
    the list back. *)
Theorem checkbox_toggle (st : State) (field item : string) (l : list value) :
  as_array (get (currentRule st) field) = Some l →
  (∃ st1 : State, toggle st field item true = Some st1
     ∧ get (currentRule st1) field = VArr (l ++ [VStr item])
     ∧ is_checked st1 field item = Some true
     ∧ (∀ item' : string, item' ≠ item →
          is_checked st1 field item' = Some (existsb (is_str item') l))
     ∧ (∀ field' : string, field' ≠ field →
          get (currentRule st1) field' = get (currentRule st) field')
     ∧ (existsb (is_str item) l = false →
          ∃ st2 : State, toggle st1 field item false = Some st2
            ∧ get (currentRule st2) field = VArr l))
  ∧ (∃ st0 : State, toggle st field item false = Some st0
       ∧ is_checked st0 field item = Some false
       ∧ (∀ item' : string, item' ≠ item →
            is_checked st0 field item' = Some (existsb (is_str item') l))
       ∧ (∀ field' : string, field' ≠ field →
            get (currentRule st0) field' = get (currentRule st) field')).
Proof.
  intros Hl. unfold toggle. rewrite Hl. simpl. split.
  - eexists. split; [done|].
    split_and!.
    + by rewrite get_handleRuleChange, decide_True.
    + unfold is_checked. rewrite get_handleRuleChange, decide_True by done.
      rewrite existsb_is_str_app, String.eqb_refl. by rewrite orb_true_r.
    + intros item' Hne. unfold is_checked.
      rewrite get_handleRuleChange, decide_True by done.
      rewrite existsb_is_str_app.
      rewrite (proj2 (String.eqb_neq item item')) by done.
      by rewrite orb_false_r.
    + intros field' Hne. rewrite get_handleRuleChange. by rewrite decide_False.
    + intros Habs. rewrite get_handleRuleChange, decide_True by done. simpl.
      eexists. split; [done|].
      rewrite get_handleRuleChange, decide_True by done.
      rewrite List.filter_app. simpl. rewrite String.eqb_refl. simpl.
      by rewrite app_nil_r, filter_absent.
  - eexists. split; [done|]. split_and!.
    + unfold is_checked. rewrite get_handleRuleChange, decide_True by done.
      by rewrite existsb_filter_self.
    + intros item' Hne. unfold is_checked.
      rewrite get_handleRuleChange, decide_True by done.
      by rewrite existsb_filter_other.
    + intros field' Hne. rewrite get_handleRuleChange. by rewrite decide_False.
Qed.

Lemma checkbox_toggle_witness :
  ∃ st0 : State, toggle Samples.named_capacity "targetWorkers" "W001" false = Some st0
    ∧ is_checked st0 "targetWorkers" "W001" = Some false
    ∧ (∀ item' : string, item' ≠ "W001" →
         is_checked st0 "targetWorkers" item' = Some (existsb (is_str item') []))
    ∧ (∀ field' : string, field' ≠ "targetWorkers" →
         get (currentRule st0) field' = get (currentRule Samples.named_capacity) field').
Proof.
  apply (checkbox_toggle Samples.named_capacity "targetWorkers" "W001" []).
  reflexivity.
Defined.

Example tick_two_workers :
  (st1 ← toggle Samples.named_capacity "targetWorkers" "W001" true;
   st2 ← toggle st1 "targetWorkers" "W002" true;
   st3 ← toggle st2 "targetWorkers" "W001" false;
   Some (get (currentRule st3) "targetWorkers"))
  = Some (VArr [VStr "W002"]).
Proof. by vm_compute. Qed.

End ToggleFacts.

(** ** Labels and cards of the validation summary *)

Section SummaryCards.

Import Report ValidationSummary.

Lemma replace_underscore_none (s : string) :
  no_underscore s = true → replace_underscore s = s.
Proof.
  induction s as [|c s IH]; simpl; [done|].
  intros [Hc Hs]%andb_true_iff. apply negb_true_iff in Hc. rewrite Hc.
  by rewrite IH.
Qed.

Lemma replace_underscore_first (a b : string) :
  no_underscore a = true →
  replace_underscore (a +:+ String "_"%char b) = a +:+ String " "%char b.
Proof.
  induction a as [|c a IH]; simpl; [done|].
  intros [Hc Ha]%andb_true_iff. apply negb_true_iff in Hc. rewrite Hc.
  by rewrite IH.
Qed.

Lemma replace_underscore_length (s : string) :
  String.length (replace_underscore s) = String.length s.
Proof.
  induction s as [|c s IH]; simpl; [done|].
  destruct (Ascii.eqb c "_"%char); simpl; by rewrite ?IH.
Qed.

Lemma append_cons_nonempty (a : string) (c : Ascii.ascii) (b : string) :
  a +:+ String c b ≠ "".
Proof. by destruct a. Qed.

(** X16: the label of a card is the error type with its first underscore
    turned into a space; later underscores stay, and a type without one is
    shown as it is.  The label has the length of the type, and the
    fallback word is shown only for an empty type. *)
Theorem label_first_underscore_only (a b fallback : string) :
  no_underscore a = true →
  label (a +:+ String "_"%char b) fallback = a +:+ String " "%char b
  ∧ (a ≠ "" → label a fallback = a)
  ∧ label "" fallback = fallback
  ∧ String.length (replace_underscore (a +:+ String "_"%char b))
    = String.length (a +:+ String "_"%char b).
Proof.
  intros Ha. split_and!.
  - unfold label. rewrite (replace_underscore_first a b Ha).
    destruct (str_truthy (a +:+ String " "%char b)) eqn:Ht; [done|].
    apply str_truthy_false in Ht. by apply append_cons_nonempty in Ht.
  - intros Hne. unfold label. rewrite (replace_underscore_none a Ha).
    destruct (str_truthy a) eqn:Ht; [done|]. by apply str_truthy_false in Ht.
  - done.
  - apply replace_underscore_length.
Qed.

Lemma label_first_underscore_only_witness :
  label "out_of_range" "Error" = "out of_range".
Proof.
  apply (label_first_underscore_only "out" "of_range" "Error"). reflexivity.
Defined.

Lemma shown_Some (x : option string) (s : string) :
  shown x = Some s ↔ x = Some s ∧ s ≠ "".
Proof.
  unfold shown. destruct x as [t|]; [|split; [done|by intros [? _]]].
  destruct (str_truthy t) eqn:Ht.
  - split; [intros [= ->]|by intros [[= ->] _]]. split; [done|].
    intros ->. done.
  - apply str_truthy_false in Ht as ->. split; [done|]. by intros [[= <-] ?].
Qed.

(** X17: the view has one card per error and one per warning, in the order
    of the report, and its "Total Issues" is the number of cards, while the
    two other counters are the report's own [total_errors] and
    [total_warnings].  An error card offers the Fix button exactly when it
    shows a suggestion, that is when the issue has a non-empty
    [suggested_fix]; a warning card never has the button nor the current
    value.  Without a report the view is the placeholder. *)
Theorem summary_cards (r : ValidationReport) :
  render None = None
  ∧ ∃ v : View, render (Some r) = Some v
      ∧ length (v_errors v) = length (errors r)
      ∧ length (v_warnings v) = length (warnings r)
      ∧ v_total_issues v = (length (v_errors v) + length (v_warnings v))%nat
      ∧ v_total_errors v = total_errors r
      ∧ v_total_warnings v = total_warnings r
      ∧ (∀ (i : nat) (e : Issue), errors r !! i = Some e →
           ∃ c : IssueCard, v_errors v !! i = Some c
             ∧ card_message c = message e
             ∧ (card_fix_button c = true ↔ is_Some (card_suggestion c))
             ∧ (card_fix_button c = true
                ↔ ∃ s : string, suggested_fix e = Some s ∧ s ≠ ""))
      ∧ (∀ (i : nat) (c : IssueCard), v_warnings v !! i = Some c →
           card_fix_button c = false ∧ card_cell_value c = None).
Proof.
  split; [done|]. eexists. split; [done|]. simpl.
  split_and!; try done.
  - by rewrite length_fmap.
  - by rewrite length_fmap.
  - by rewrite !length_fmap.
  - intros i e Hi. exists (error_card e). rewrite list_lookup_fmap, Hi.
    split_and!; try done.
    + simpl. apply bool_decide_eq_true.
    + simpl. rewrite bool_decide_eq_true. split.
      * intros [s Hs]. exists s. by apply shown_Some.
      * intros (s & Hs & Hne). exists s. by apply shown_Some.
  - intros i c Hi. rewrite list_lookup_fmap in Hi.
    destruct (warnings r !! i) as [w|]; simpl in Hi; [|done].
    by injection Hi as <-.
Qed.

End SummaryCards.

(** ** File upload *)

Section FileUploadFacts.

Import FileUpload.

(** X18: the parent's [onDataUpload] is called only for an ok response with
    a readable body, and then once, with the reply's rows, headers and the
    reply itself; a failed request, a response that is not ok and an
    unreadable body call nothing and end in an error status.  Delivered to
    [Home], the reply becomes the insights and the rows go through
    [handleDataUpload] with that reply.  The call is made before the row
    count is read: a reply without rows still reaches the parent, though the
    status then reports an error.  Processing is over in every case. *)
Theorem upload_reaches_parent (reply : fetch_outcome UploadResult)
    (typeError : string) (st : Home.State) (ty : string)
    (vreply : fetch_outcome Home.ValidateReply) :
  let out := processFile reply typeError in
  isProcessing out.1 = false
  ∧ ((∃ m, reply = NetworkError m) ∨ (∃ s j, reply = Response false s j)
     ∨ (∃ s m, reply = Response true s (ParseError m)) →
       out.2 = [] ∧ ∃ m : string, out.1 = failed m)
  ∧ (∀ (s : string) (result : UploadResult),
       reply = Response true s (Parsed result) →
       out.2 = [{| call_data := data result; call_headers := headers result;
                   call_response := response result |}])
  ∧ (∀ (s : string) (result : UploadResult) (rows : list DataRow),
       reply = Response true s (Parsed result) → data result = Some rows →
       uploadStatus out.1
       = "✅ Successfully processed " +:+ pretty (length rows)
         +:+ " rows with AI insights"
       ∧ ∀ c : upload_call, c ∈ out.2 →
           deliver st ty c vreply
           = Some (Home.handleDataUpload st ty rows (Some (response result)) vreply)
           ∧ Home.aiInsights
               (Home.handleDataUpload st ty rows (Some (response result)) vreply).1
             = Some (response result))
  ∧ (∀ (s : string) (result : UploadResult),
       reply = Response true s (Parsed result) → data result = None →
       out.1 = failed typeError
       ∧ ∀ c : upload_call, c ∈ out.2 → deliver st ty c vreply = None).
Proof.
  intros out. unfold out. split_and!.
  - destruct reply as [m|[] s [m|result]]; simpl; try done.
    by destruct (data result).
  - intros [(m & ->)|[(s & j & ->)|(s & m & ->)]]; simpl;
      (split; [done | by eexists]).
  - intros s result ->. simpl. by destruct (data result).
  - intros s result rows -> Hrows. simpl. rewrite Hrows. simpl.
    split; [done|]. intros c Hc. apply list_elem_of_singleton in Hc as ->.
    unfold deliver. simpl. split; [done|].
    by apply (upload_frame st ty rows (response result) vreply).
  - intros s result -> Hrows. simpl. rewrite Hrows. simpl.
    split; [done|]. intros c Hc. by apply list_elem_of_singleton in Hc as ->.
Qed.

Lemma upload_reaches_parent_witness :
  (processFile (Response false "Bad Request" (ParseError "")) "").2 = []
  ∧ ∃ m : string,
      (processFile (Response false "Bad Request" (ParseError "")) "").1 = failed m.
Proof.
  apply (upload_reaches_parent (Response false "Bad Request" (ParseError "")) ""
           Home.initial "clients" (NetworkError "")).
  right; left. by eexists _, _.
Defined.

Example upload_two_rows :
  processFile
    (Response true "OK"
       (Parsed {| data := Some [Samples.client_row; Samples.client_row];
                  headers := Some ["ClientID"; "Budget"];
                  response := Samples.upload_reply |})) "no rows"
  = ({| isProcessing := false;
        uploadStatus := "✅ Successfully processed 2 rows with AI insights" |},
     [{| call_data := Some [Samples.client_row; Samples.client_row];
         call_headers := Some ["ClientID"; "Budget"];
         call_response := Samples.upload_reply |}]).
Proof. reflexivity. Qed.

End FileUploadFacts.

(** ** Rule suggestions *)

Section SuggestionFacts.

Import RuleSuggestions.

(** X19: after a fetch the loading flag is off, and an error message and
    suggestions are never shown together: every failure (request, status,
    body) empties the list, and a list with a suggestion in it comes from an
    ok, readable reply and stands with an empty error message.  A reply
    without a [suggestions] field gives the empty list.  The fetch on data
    change is made exactly when some table holds a row. *)
Theorem suggestions_after_fetch (reply : fetch_outcome SuggestionsReply)
    (clientsData workersData tasksData : list DataRow) :
  let st := fetchSuggestions reply in
  loading st = false
  ∧ (error st ≠ "" → suggestions st = [])
  ∧ (suggestions st ≠ [] →
       ∃ (s : string) (result : SuggestionsReply),
         reply = Response true s (Parsed result)
         ∧ reply_suggestions result = Some (suggestions st) ∧ error st = "")
  ∧ (∀ s : string,
       reply = Response true s (Parsed {| reply_suggestions := None |}) →
       suggestions st = [] ∧ error st = "")
  ∧ (fetch_enabled clientsData workersData tasksData = false
     ↔ clientsData = [] ∧ workersData = [] ∧ tasksData = []).
Proof.
  intros st. unfold st. split_and!.
  - by destruct reply as [m|[] s [m|result]].
  - by destruct reply as [m|[] s [m|result]].
  - destruct reply as [m|[] s [m|result]]; simpl; try done.
    intros Hne. exists s, result. split; [done|].
    by destruct (reply_suggestions result).
  - by intros s ->.
  - unfold fetch_enabled. rewrite !orb_false_iff, !nonempty_nil. tauto.
Qed.

Lemma strict_eq_refl (v : value) : strict_eq v v ≠ Some false.
Proof.
  destruct v; simpl; try done.
  - by rewrite Bool.eqb_reflx.
  - by rewrite Z.eqb_refl.
  - by rewrite String.eqb_refl.
Qed.

Lemma strict_eq_primitive (a b : value) :
  primitive b = true → is_Some (strict_eq a b).
Proof. destruct a, b; simpl; by eauto. Qed.

Lemma without_id_spec (id : value) (prev rest : list object) :
  without_id id prev = Some rest →
  rest `sublist_of` prev
  ∧ ∀ s : object, s ∈ rest ↔ s ∈ prev ∧ strict_eq (get s "id") id = Some false.
Proof.
  revert rest. induction prev as [|x prev IH]; intros rest; simpl.
  - intros [= <-]. split; [done|]. intros s. split; [by intros ?%elem_of_nil|].
    by intros [?%elem_of_nil _].
  - destruct (without_id id prev) as [rest'|] eqn:Hw;
      destruct (strict_eq (get x "id") id) as [[]|] eqn:Hx; try done;
      intros [= <-]; destruct (IH rest' eq_refl) as [Hsub Hin].
    + split; [by apply sublist_cons|]. intros s. rewrite Hin, elem_of_cons.
      split; [tauto|]. intros [[->|Hs] Hf]; [congruence | done].
    + split; [by apply sublist_skip|]. intros s. rewrite !elem_of_cons, Hin.
      split; [intros [->|[? ?]]; tauto | tauto].
Qed.

Lemma without_id_defined (id : value) (prev : list object) :
  primitive id = true → is_Some (without_id id prev).
Proof.
  intros Hid. induction prev as [|x prev [rest Hrest]]; simpl; [by eexists|].
  rewrite Hrest.
  destruct (strict_eq_primitive (get x "id") id Hid) as [[] ->]; by eexists.
Qed.

(** X20: accepting a suggestion appends one rule to the rule list of
    [Home], with the suggestion's type and text, and changes no table; in
    the panel it leaves, in their order, exactly the suggestions whose [id]
    differs from the accepted one's, so the accepted suggestion is gone, as
    is any other with the same [id].  The loading flag and error message
    stay.  With an [id] that is a string, a number, a boolean or missing,
    accepting always goes through. *)
Theorem accept_suggestion (h : Home.State) (st : State) (suggestion : object)
    (now : Z) :
  primitive (get suggestion "id") = true →
  ∃ (h' : Home.State) (st' : State),
    accept h st suggestion now = Some (h', st')
    ∧ Home.rules h' = Home.rules h ++ [Home.suggestion_rule suggestion now]
    ∧ Home.type (Home.suggestion_rule suggestion now) = get suggestion "type"
    ∧ Home.clientsData h' = Home.clientsData h
    ∧ Home.workersData h' = Home.workersData h
    ∧ Home.tasksData h' = Home.tasksData h
    ∧ (suggestions st' `sublist_of` suggestions st)
    ∧ (∀ s : object,
         s ∈ suggestions st'
         ↔ s ∈ suggestions st
           ∧ strict_eq (get s "id") (get suggestion "id") = Some false)
    ∧ (suggestion ∉ suggestions st')
    ∧ loading st' = loading st
    ∧ error st' = error st.
Proof.
  intros Hid. unfold accept, handleAccept.
  destruct (without_id_defined (get suggestion "id") (suggestions st) Hid)
    as [rest Hrest].
  rewrite Hrest. simpl. eexists _, _. split; [done|]. simpl.
  destruct (without_id_spec _ _ _ Hrest) as [Hsub Hin].
  split_and!; try done.
  intros Hs. apply Hin in Hs as [_ Hf]. by apply strict_eq_refl in Hf.
Qed.

Lemma accept_suggestion_witness :
  ∃ (h' : Home.State) (st' : State),
    accept Samples.invalid_home
      {| suggestions := [{[ "id" := VStr "s1" ]}; {[ "id" := VStr "s2" ]}];
         loading := false; error := "" |}
      {[ "id" := VStr "s1" ]} 1735689600000 = Some (h', st')
    ∧ length (Home.rules h') = 1%nat
    ∧ suggestions st' = [{[ "id" := VStr "s2" ]}].
Proof.
  destruct (accept_suggestion Samples.invalid_home
              {| suggestions := [{[ "id" := VStr "s1" ]}; {[ "id" := VStr "s2" ]}];
                 loading := false; error := "" |}
              {[ "id" := VStr "s1" ]} 1735689600000)
    as (h' & st' & Heq & Hrules & _); [by vm_compute|].
  exists h', st'. split; [exact Heq|].
  vm_compute in Heq. injection Heq as <- <-. split; reflexivity.
Defined.

End SuggestionFacts.
